(** * CV text extraction pipeline ([.github/scripts/process_cv.py])

    A shallow embedding of the script: Python strings are lists of Unicode
    code points, the document parsers and the network are oracles of an
    environment record, and the orchestrator runs in a small state and
    exception monad over the file system and an event log.

    The orchestrator comes twice. First as it runs where the console takes
    every line, the URL parses and the temporary file can be created. Then,
    in [Host], where [print], [urlparse] and [NamedTemporaryFile] can raise;
    on a host that refuses nothing the two runs are the same
    ([quiet_process_file], [quiet_main]). *)

From Stdlib Require Import NArith ZArith Lia String Ascii.
From stdpp Require Import base option list gmap.

Local Open Scope N_scope.

(** ** Python strings *)

Module PyStr.

(** A [str] is a sequence of code points; [len] is [length]. *)
Definition char : Type := N.
Definition str : Type := list char.

(** Literals of the script, written as Rocq strings. *)
Fixpoint py (s : string) : str :=
  match s with
  | EmptyString => []
  | String a s' => N_of_ascii a :: py s'
  end.

Definition space : char := 0x20.
Definition newline : char := 0x0A.

(** [Py_UNICODE_ISSPACE]: the predicate behind both [\s] of [re] on [str]
    patterns and [str.strip()] without argument. *)
Definition is_space (c : char) : bool :=
  ((0x09 <=? c) && (c <=? 0x0D)) || ((0x1C <=? c) && (c <=? 0x20))
  || (c =? 0x85) || (c =? 0xA0) || (c =? 0x1680)
  || ((0x2000 <=? c) && (c <=? 0x200A))
  || (c =? 0x2028) || (c =? 0x2029) || (c =? 0x202F) || (c =? 0x205F)
  || (c =? 0x3000).

Definition ascii_alnum (c : char) : bool :=
  ((0x30 <=? c) && (c <=? 0x39)) || ((0x41 <=? c) && (c <=? 0x5A))
  || ((0x61 <=? c) && (c <=? 0x7A)).

Fixpoint dropwhile (p : char -> bool) (s : str) : str :=
  match s with
  | [] => []
  | c :: s' => if p c then dropwhile p s' else s
  end.

Definition lstrip (s : str) : str := dropwhile is_space s.
Definition rstrip (s : str) : str := rev (dropwhile is_space (rev s)).

(** [s.strip()] *)
Definition strip (s : str) : str := rstrip (lstrip s).

(** Truthiness of a string: non-empty. *)
Definition truthy (s : str) : bool :=
  match s with [] => false | _ :: _ => true end.

Fixpoint starts_with (p s : str) : bool :=
  match p, s with
  | [], _ => true
  | _ :: _, [] => false
  | a :: p', b :: s' => (a =? b) && starts_with p' s'
  end.

(** [p in s] *)
Fixpoint contains (p s : str) : bool :=
  starts_with p s || match s with [] => false | _ :: s' => contains p s' end.

End PyStr.
Import PyStr.

(** ** The text cleaner *)

Section Cleaner.

(** [Py_UNICODE_ISALNUM] outside ASCII: the table of the Unicode database
    the interpreter ships, taken as given. *)
Variable unicode_alnum : char -> bool.

(** [\w] of [re] on a [str] pattern: alphanumeric or underscore. *)
Definition is_word (c : char) : bool :=
  if c <? 0x80 then ascii_alnum c || (c =? 0x5F) else unicode_alnum c.

Definition punctuation : str := py "-.,;:()[]".

Definition is_punct (c : char) : bool := existsb (N.eqb c) punctuation.

(** [re.sub(r'\s+', ' ', text)]: every maximal run of whitespace becomes
    one space. [in_run] tells that the previous character was whitespace,
    so the run's replacement is already written. *)
Fixpoint sub_ws (in_run : bool) (s : str) : str :=
  match s with
  | [] => []
  | c :: s' =>
      if is_space c
      then (if in_run then sub_ws true s' else space :: sub_ws true s')
      else c :: sub_ws false s'
  end.

(** The class [[\w\s\-\.,;:()\[\]]]; the pattern is its complement. *)
Definition allowed (c : char) : bool := is_word c || is_space c || is_punct c.

(** [re.sub(r'[^\w\s\-\.,;:()\[\]]+', '', text)]: every run of characters
    outside the class is replaced by nothing. *)
Definition sub_special (s : str) : str := List.filter allowed s.

Definition clean_text (text : str) : str :=
  let text := sub_ws false text in
  let text := sub_special text in
  let text := strip text in
  text.

End Cleaner.

(** ** Format extractors *)

Inductive backend := Pdfplumber | PyPDF2 | Pdftotext.

(** What [page.extract_text()] does on one page: it returns a string or
    [None], or it raises. *)
Inductive page := PageText (page_text : option str) | PageError.

(** How far a page loop got: it ran to its end, or an exception left it;
    either way [text] holds what was appended until then. *)
Inductive attempt := Completed (text : str) | Interrupted (text : str).

Definition text_of (a : attempt) : str :=
  match a with Completed text | Interrupted text => text end.

(** What the three PDF libraries report on the downloaded file. [None] for
    the page lists: opening the file raises. [None] for the command:
    [subprocess.run] raises (missing binary, timeout); otherwise the return
    code and the captured standard output. *)
Record pdf_file := {
  pdfplumber_pages : option (list page);
  pypdf2_pages : option (list page);
  pdftotext_run : option (Z * str)
}.

(** A parsed DOCX container: body paragraphs, and tables as rows of cells. *)
Record docx_document := {
  paragraphs : list str;
  tables : list (list (list str))
}.

Section Extractors.

Variable unicode_alnum : char -> bool.

(** [for page in pages: page_text = page.extract_text();
     if page_text: text += page_text + "\n"] *)
Fixpoint read_pages (pages : list page) (text : str) : attempt :=
  match pages with
  | [] => Completed text
  | PageError :: _ => Interrupted text
  | PageText None :: rest => read_pages rest text
  | PageText (Some page_text) :: rest =>
      if truthy page_text
      then read_pages rest (text ++ page_text ++ [newline])
      else read_pages rest text
  end.

Definition open_and_read (pages : option (list page)) (text : str) : attempt :=
  match pages with
  | Some pages => read_pages pages text
  | None => Interrupted text
  end.

(** The [if text.strip(): return ...] that closes a [try] body is reached
    only when the body did not raise. *)
Definition has_text (a : attempt) : bool :=
  match a with
  | Completed text => truthy (strip text)
  | Interrupted _ => false
  end.

(** [extract_text_from_pdf]: the text returned and the backends that were
    run, in order. The variable [text] is initialised once, before
    method 1, and method 2 goes on appending to it. *)
Definition extract_text_from_pdf (f : pdf_file) : str * list backend :=
  let text := [] in
  let method1 := open_and_read (pdfplumber_pages f) text in
  if has_text method1
  then (clean_text unicode_alnum (text_of method1), [Pdfplumber]) else
  let text := text_of method1 in
  let method2 := open_and_read (pypdf2_pages f) text in
  if has_text method2
  then (clean_text unicode_alnum (text_of method2), [Pdfplumber; PyPDF2]) else
  match pdftotext_run f with
  | Some (returncode, stdout) =>
      if (returncode =? 0)%Z && truthy (strip stdout)
      then (clean_text unicode_alnum stdout, [Pdfplumber; PyPDF2; Pdftotext])
      else ([], [Pdfplumber; PyPDF2; Pdftotext])
  | None => ([], [Pdfplumber; PyPDF2; Pdftotext])
  end.

Definition add_paragraph (text paragraph : str) : str :=
  text ++ paragraph ++ [newline].

Definition add_cell (text cell : str) : str := text ++ cell ++ [space].

Definition add_row (text : str) (row : list str) : str :=
  fold_left add_cell row text ++ [newline].

Definition add_table (text : str) (table : list (list str)) : str :=
  fold_left add_row table text.

(** [extract_text_from_docx]; [None]: [Document(filepath)] raises. *)
Definition extract_text_from_docx (doc : option docx_document) : str :=
  match doc with
  | Some doc =>
      let text := [] in
      let text := fold_left add_paragraph (paragraphs doc) text in
      let text := fold_left add_table (tables doc) text in
      clean_text unicode_alnum text
  | None => []
  end.

(** [extract_text_from_doc]; the argument is what running [antiword]
    gives: [None] when [subprocess.run] raises. *)
Definition extract_text_from_doc (run : option (Z * str)) : str :=
  match run with
  | Some (returncode, stdout) =>
      if (returncode =? 0)%Z then clean_text unicode_alnum stdout else []
  | None => []
  end.

End Extractors.

(** ** The orchestrator *)

(** The callback body: a dictionary whose keys depend on the outcome. *)
Record result := {
  success : bool;
  application_id : str;
  extracted_text : option str;
  file_type : option str;
  text_length : option nat;
  error : option str;
  processing_info : str * str   (* method, timestamp *)
}.

(** Lines the orchestrator prints. Diagnostics printed inside the helpers
    carry the libraries' exception texts and are not recorded. *)
Inductive console :=
| Downloading (file_url : str)
| ProcessingFormat (b : str)
| ExtractionSuccessful (n : nat)
| FirstCharacters (t : str)
| ProcessingFailed (e : str)
| SendingResult (callback_url : str)
| CallbackSuccessful
| CallbackFailed (e : str)
| Usage
| CompletedSuccessfully
| NotCompleted.

Inductive event :=
| Print (line : console)
| Ran (b : backend)
| Post (callback_url auth_token : str) (body : result).

Inductive outcome (A : Type) := Ret (a : A) | Raise (e : str).
Arguments Ret {A} a.
Arguments Raise {A} e.

(** What [requests.get(url, stream=True)] followed by the write loop does:
    the file is written whole; or the request fails before [open]; or
    the stream breaks after [open] created the file. *)
Inductive transfer := Transferred | Refused | Broken.

(** Everything outside the script. *)
Record env := {
  (** [os.path.splitext(urlparse(file_url).path)[1].lower()] *)
  url_extension : str -> str;
  (** [requests.head(file_url).headers.get('content-type', '').lower()];
      [None]: the probe raises *)
  head_content_type : str -> option str;
  (** the name [NamedTemporaryFile] picks *)
  fresh_name : str;
  http_get : str -> transfer;
  (** what the parsers find in the downloaded file *)
  as_pdf : pdf_file;
  as_docx : option docx_document;
  antiword_run : option (Z * str);
  (** [requests.get("http://worldtimeapi.org/api/ip").json()["utc_datetime"]],
      by the number of earlier lookups *)
  world_time : nat -> outcome str;
  (** [requests.post(...)] and [raise_for_status()] *)
  http_post : str -> result -> outcome unit
}.

(** The paths that exist, the lookups made so far, what happened so far. *)
Record world := {
  fs : gset str;
  lookups : nat;
  trace : list event
}.

Definition M (A : Type) : Type := world -> outcome A * world.

Definition ret {A} (a : A) : M A := fun w => (Ret a, w).
Definition raise {A} (e : str) : M A := fun w => (Raise e, w).

Definition bind {A B} (m : M A) (k : A -> M B) : M B :=
  fun w =>
    match m w with
    | (Ret a, w') => k a w'
    | (Raise e, w') => (Raise e, w')
    end.

Notation "x <- m ;; k" := (bind m (fun x => k))
  (at level 100, m at next level, right associativity).
Notation "m ;; k" := (bind m (fun _ => k))
  (at level 100, right associativity).

(** [try: m except Exception as e: h e] *)
Definition try_except {A} (m : M A) (h : str -> M A) : M A :=
  fun w =>
    match m w with
    | (Ret a, w') => (Ret a, w')
    | (Raise e, w') => h e w'
    end.

(** [try: m finally: f]; an exception that leaves [m] goes on after [f]. *)
Definition try_finally {A} (m : M A) (f : M unit) : M A :=
  fun w =>
    match m w with
    | (r, w') =>
        match f w' with
        | (Ret _, w'') => (r, w'')
        | (Raise e, w'') => (Raise e, w'')
        end
    end.

Definition emit (e : event) : M unit :=
  fun w => (Ret tt, {| fs := fs w; lookups := lookups w; trace := trace w ++ [e] |}).

(** [print] on a console that takes the line; [Host.print] is the one
    that can raise. *)
Definition print (line : console) : M unit := emit (Print line).

Definition create (path : str) : M unit :=
  fun w => (Ret tt, {| fs := {[path]} ∪ fs w; lookups := lookups w; trace := trace w |}).

Definition exists_path (path : str) : M bool :=
  fun w => (Ret (bool_decide (path ∈ fs w)), w).

Definition unlink (path : str) : M unit :=
  fun w => (Ret tt, {| fs := fs w ∖ {[path]}; lookups := lookups w; trace := trace w |}).

Section Orchestrator.

Variable unicode_alnum : char -> bool.
Variable E : env.

(** [download_file]: every exception is caught and answered by [False]. *)
Definition download_file (url filename : str) : M bool :=
  match http_get E url with
  | Transferred => create filename ;; ret true
  | Refused => ret false
  | Broken => create filename ;; ret false
  end.

Definition utc_datetime : M str :=
  fun w =>
    (world_time E (lookups w),
     {| fs := fs w; lookups := S (lookups w); trace := trace w |}).

(** The extension of the URL's path, or else the one the content type
    of a [HEAD] probe suggests. *)
Definition resolve_extension (file_url : str) : str :=
  let file_extension := url_extension E file_url in
  if negb (truthy file_extension) then
    match head_content_type E file_url with
    | Some content_type =>
        if contains (py "pdf") content_type then py ".pdf"
        else if contains (py "wordprocessingml") content_type then py ".docx"
        else if contains (py "msword") content_type then py ".doc"
        else file_extension
    | None => file_extension
    end
  else file_extension.

(** The [with tempfile.NamedTemporaryFile(delete=False)] block: the file
    is created under the fresh name and stays when the block is left; the
    block returns the name the rest works with, and the extension. The URL
    parses and the file can be created; [Host.temporary_name] is the block
    where either can raise. *)
Definition temporary_name (file_url : str) : M (str * str) :=
  create (fresh_name E) ;;
  let tmp_filename := fresh_name E in
  let file_extension := resolve_extension file_url in
  let tmp_filename :=
    if truthy file_extension then tmp_filename ++ file_extension
    else tmp_filename in
  ret (tmp_filename, file_extension).

(** [extract_text_from_pdf(tmp_filename)], the backends it ran entering
    the trace. *)
Definition run_pdf : M str :=
  let '(text, ran) := extract_text_from_pdf unicode_alnum (as_pdf E) in
  fold_right (fun b k => emit (Ran b) ;; k) (ret text) ran.

(** The body of the [try]. *)
Definition attempt_extraction
    (file_url application_id tmp_filename file_extension : str) : M result :=
  print (Downloading file_url) ;;
  ok <- download_file file_url tmp_filename ;;
  if negb ok then raise (py "Failed to download file") else
  extracted_text <-
    (if bool_decide (file_extension = py ".pdf") then
       print (ProcessingFormat (py "PDF")) ;; run_pdf
     else if bool_decide (file_extension = py ".docx") then
       print (ProcessingFormat (py "DOCX")) ;;
       ret (extract_text_from_docx unicode_alnum (as_docx E))
     else if bool_decide (file_extension = py ".doc") then
       print (ProcessingFormat (py "DOC")) ;;
       ret (extract_text_from_doc unicode_alnum (antiword_run E))
     else raise (py "Unsupported file type: " ++ file_extension)) ;;
  if negb (truthy (strip extracted_text))
  then raise (py "No text could be extracted from the file") else
  timestamp <- utc_datetime ;;
  let result :=
    {| success := true;
       application_id := application_id;
       extracted_text := Some extracted_text;
       file_type := Some file_extension;
       text_length := Some (length extracted_text);
       error := None;
       processing_info := (py "github_actions", timestamp) |} in
  print (ExtractionSuccessful (length extracted_text)) ;;
  print (FirstCharacters (take 200 extracted_text)) ;;
  ret result.

(** The [except Exception as e] handler. *)
Definition failure_result (application_id e : str) : M result :=
  timestamp <- utc_datetime ;;
  let result :=
    {| success := false;
       application_id := application_id;
       extracted_text := None;
       file_type := None;
       text_length := None;
       error := Some e;
       processing_info := (py "github_actions", timestamp) |} in
  print (ProcessingFailed e) ;;
  ret result.

(** The [finally] block. *)
Definition clean_up (tmp_filename : str) : M unit :=
  present <- exists_path tmp_filename ;;
  if present then unlink tmp_filename else ret tt.

(** The callback: whatever the POST raises is caught and printed. *)
Definition send_result (callback_url auth_token : str) (r : result) : M unit :=
  print (SendingResult callback_url) ;;
  emit (Post callback_url auth_token r) ;;
  match http_post E callback_url r with
  | Ret _ => print CallbackSuccessful
  | Raise e => print (CallbackFailed e)
  end.

Definition process_file
    (file_url application_id callback_url auth_token : str) : M result :=
  names <- temporary_name file_url ;;
  let '(tmp_filename, file_extension) := names in
  result <-
    try_finally
      (try_except
         (attempt_extraction file_url application_id tmp_filename file_extension)
         (failure_result application_id))
      (clean_up tmp_filename) ;;
  send_result callback_url auth_token result ;;
  ret result.

(** The script's entry: [sys.argv] in, exit status out. An exception
    that leaves [process_file] is not caught: the interpreter prints the
    traceback and exits with status 1. *)
Definition main (argv : list str) (w : world) : Z * world :=
  if negb (length argv =? 5)%nat then
    (1%Z, snd (print Usage w))
  else
    let file_url := nth 1 argv [] in
    let application_id := nth 2 argv [] in
    let callback_url := nth 3 argv [] in
    let auth_token := nth 4 argv [] in
    match process_file file_url application_id callback_url auth_token w with
    | (Ret result, w') =>
        if success result
        then (0%Z, snd (print CompletedSuccessfully w'))
        else (1%Z, snd (print NotCompleted w'))
    | (Raise _, w') => (1%Z, w')
    end.

End Orchestrator.

(** ** Stated properties *)

(** The shape the cleaner promises: no whitespace at either end, only
    characters of the class, and no whitespace but the ASCII space. *)
Definition clean_char (unicode_alnum : char -> bool) (c : char) : Prop :=
  is_word unicode_alnum c = true \/ c = space \/ In c punctuation.

Definition clean_form (unicode_alnum : char -> bool) (s : str) : Prop :=
  (forall c, head s = Some c -> is_space c = false) /\
  (forall c, last s = Some c -> is_space c = false) /\
  Forall (clean_char unicode_alnum) s /\
  Forall (fun c => is_space c = true -> c = space) s.


(** ** The fallback chain as the specification words it

    "An explicit ordered list of extractor strategies; iterate until
    non-empty, short-circuiting." A strategy is a backend with the raw
    output it gives when run on its own, [None] when it fails. *)

Definition raw_output (a : attempt) : option str :=
  match a with
  | Completed text => Some text
  | Interrupted _ => None
  end.

Definition pdfplumber_alone (f : pdf_file) : option str :=
  raw_output (open_and_read (pdfplumber_pages f) []).

Definition pypdf2_alone (f : pdf_file) : option str :=
  raw_output (open_and_read (pypdf2_pages f) []).

Definition pdftotext_alone (f : pdf_file) : option str :=
  match pdftotext_run f with
  | Some (returncode, stdout) => if (returncode =? 0)%Z then Some stdout else None
  | None => None
  end.

Definition strategies (f : pdf_file) : list (backend * option str) :=
  [(Pdfplumber, pdfplumber_alone f);
   (PyPDF2, pypdf2_alone f);
   (Pdftotext, pdftotext_alone f)].

Section Chain.

Variable unicode_alnum : char -> bool.

(** When a raw output counts as a success. *)
Variable yields : str -> bool.

Definition succeeds (out : option str) : bool :=
  match out with
  | Some raw => yields raw
  | None => false
  end.

(** The cleaned text of the first strategy that succeeds, with the
    strategies tried up to it; the empty text when none does. *)
Fixpoint first_success (l : list (backend * option str)) : str * list backend :=
  match l with
  | [] => ([], [])
  | (b, out) :: rest =>
      if succeeds out
      then (clean_text unicode_alnum (default [] out), [b])
      else let '(text, tried) := first_success rest in (text, b :: tried)
  end.

End Chain.

(** The two readings of "yields text": the raw output has a character that
    is not whitespace (what the code tests), or the cleaned output is not
    empty (what the specification says). *)
Definition raw_nonblank (raw : str) : bool := truthy (strip raw).

Definition cleaned_nonempty (unicode_alnum : char -> bool) (raw : str) : bool :=
  truthy (clean_text unicode_alnum raw).

Definition prepend (u : str) (a : attempt) : attempt :=
  match a with
  | Completed text => Completed (u ++ text)
  | Interrupted text => Interrupted (u ++ text)
  end.

(** ** Sample inputs *)

(** The layout-aware backend reads one page and fails on the next; the
    generic backend reads the document. *)
Definition partial_pdf : pdf_file :=
  {| pdfplumber_pages := Some [PageText (Some (py "A")); PageError];
     pypdf2_pages := Some [PageText (Some (py "B"))];
     pdftotext_run := Some (0%Z, py "C") |}.

(** The layout-aware backend finds nothing but symbols. *)
Definition symbols_pdf : pdf_file :=
  {| pdfplumber_pages := Some [PageText (Some (py "!!!"))];
     pypdf2_pages := Some [PageText (Some (py "hello"))];
     pdftotext_run := Some (0%Z, py "hello") |}.

(** A scanned document: no backend finds text. *)
Definition scanned_pdf : pdf_file :=
  {| pdfplumber_pages := Some [PageText None];
     pypdf2_pages := Some [PageText (Some [])];
     pdftotext_run := Some (0%Z, [newline]) |}.

(** The layout-aware backend sees a blank page; the generic one reads text. *)
Definition faint_pdf : pdf_file :=
  {| pdfplumber_pages := Some [PageText (Some [space])];
     pypdf2_pages := Some [PageText (Some (py "hello"))];
     pdftotext_run := None |}.

(** A table for the examples: their documents are ASCII and never ask it. *)
Definition no_table : char -> bool := fun _ => false.

Definition plain_pdf : pdf_file :=
  {| pdfplumber_pages := Some [PageText (Some (py "Jane Doe"))];
     pypdf2_pages := None;
     pdftotext_run := None |}.

(** The DOCX of the specification's example. *)
Definition jane_docx : docx_document :=
  {| paragraphs := [py "Name: Jane Doe"; py "Skills: C++, networking"];
     tables := [[[py "Email"; py "j@x.com"]]] |}.

(** The world after some more events. *)
Definition logged (es : list event) (w : world) : world :=
  {| fs := fs w; lookups := lookups w; trace := trace w ++ es |}.

(** What the result record promises when it reports success. *)
Definition well_formed (r : result) : Prop :=
  success r = true ->
  exists text,
    extracted_text r = Some text /\ text <> [] /\
    text_length r = Some (length text).

(** The callbacks attempted so far. *)
Definition posts (w : world) : list (str * str * result) :=
  omap (fun e => match e with Post u t b => Some (u, t, b) | _ => None end)
    (trace w).

(** A step keeps a property of the world, however it ends. *)
Definition keeps {A} (P : world -> Prop) (m : M A) : Prop :=
  forall w, P w -> P (snd (m w)).

(** The same surroundings with another callback endpoint. *)
Definition with_post (E : env) (post : str -> result -> outcome unit) : env :=
  {| url_extension := url_extension E;
     head_content_type := head_content_type E;
     fresh_name := fresh_name E;
     http_get := http_get E;
     as_pdf := as_pdf E;
     as_docx := as_docx E;
     antiword_run := antiword_run E;
     world_time := world_time E;
     http_post := post |}.

(** A run where the network behaves: the URL ends in [.pdf], the download
    succeeds, the time service and the callback endpoint answer. *)
Definition online (f : pdf_file) : env :=
  {| url_extension := fun _ => py ".pdf";
     head_content_type := fun _ => None;
     fresh_name := py "/tmp/tmpk3x9ab_c";
     http_get := fun _ => Transferred;
     as_pdf := f;
     as_docx := None;
     antiword_run := None;
     world_time := fun _ => Ret (py "2024-05-01T10:00:00+00:00");
     http_post := fun _ _ => Ret tt |}.

(** The same, with the download refused and the time service unreachable. *)
Definition offline : env :=
  {| url_extension := fun _ => py ".pdf";
     head_content_type := fun _ => None;
     fresh_name := py "/tmp/tmpk3x9ab_c";
     http_get := fun _ => Refused;
     as_pdf := plain_pdf;
     as_docx := None;
     antiword_run := None;
     world_time := fun _ => Raise (py "ConnectionError");
     http_post := fun _ _ => Ret tt |}.

Definition empty_world : world := {| fs := ∅; lookups := 0; trace := [] |}.

Definition cv_url : str := py "https://example.org/files/cv.pdf".
Definition callback_url : str := py "https://example.org/api/cv-callback".

(** [process_file] up to the callback: the temporary name and the
    [try ... except ... finally] block. *)
Definition before_callback (unicode_alnum : char -> bool) (E : env)
    (file_url application_id : str) : M result :=
  names <- temporary_name E file_url ;;
  let '(tmp_filename, file_extension) := names in
  try_finally
    (try_except
       (attempt_extraction unicode_alnum E file_url application_id
          tmp_filename file_extension)
       (failure_result E application_id))
    (clean_up tmp_filename).

(** The failure record the handler builds. *)
Definition failed (application_id e timestamp : str) : result :=
  {| success := false;
     application_id := application_id;
     extracted_text := None;
     file_type := None;
     text_length := None;
     error := Some e;
     processing_info := (py "github_actions", timestamp) |}.

(** The name the download, the extractors and the clean-up work with. *)
Definition working_name (E : env) (file_url : str) : str :=
  if truthy (resolve_extension E file_url)
  then fresh_name E ++ resolve_extension E file_url
  else fresh_name E.

(** ** Further stated properties *)

(** No two whitespace characters side by side. *)
Definition single_spaced (s : str) : Prop :=
  forall u a b v,
    s = u ++ a :: b :: v -> is_space a = true -> is_space b = false.

(** The raw text of a DOCX in one expression: every paragraph and a line
    break, then every table row by row, every cell and a space, a line
    break after each row. *)
Definition docx_raw (doc : docx_document) : str :=
  flat_map (fun paragraph => paragraph ++ [newline]) (paragraphs doc)
  ++ flat_map
       (fun table =>
          flat_map
            (fun row => flat_map (fun cell => cell ++ [space]) row ++ [newline])
            table)
       (tables doc).

(** What one page adds to the text of a PDF backend. *)
Definition page_line (page_text : option str) : str :=
  match page_text with
  | Some t => if truthy t then t ++ [newline] else []
  | None => []
  end.

(** The backends run so far. *)
Definition backends_run (w : world) : list backend :=
  omap (fun e => match e with Ran b => Some b | _ => None end) (trace w).

(** The extensions the orchestrator has an extractor for. *)
Definition supported : list str := [py ".pdf"; py ".docx"; py ".doc"].

(** The success record the [try] body builds. *)
Definition succeeded_with (application_id text file_extension timestamp : str)
    : result :=
  {| success := true;
     application_id := application_id;
     extracted_text := Some text;
     file_type := Some file_extension;
     text_length := Some (length text);
     error := None;
     processing_info := (py "github_actions", timestamp) |}.

(** What the extractor chosen for an extension returns on the downloaded
    file; [None] when there is no extractor for it. *)
Definition text_for (unicode_alnum : char -> bool) (E : env)
    (file_extension : str) : option str :=
  if bool_decide (file_extension = py ".pdf")
  then Some (fst (extract_text_from_pdf unicode_alnum (as_pdf E)))
  else if bool_decide (file_extension = py ".docx")
  then Some (extract_text_from_docx unicode_alnum (as_docx E))
  else if bool_decide (file_extension = py ".doc")
  then Some (extract_text_from_doc unicode_alnum (antiword_run E))
  else None.

(** ** The outcome of a run as a table

    What [process_file] comes to, read off the surroundings alone: [n] is
    the number of time lookups made before the run. *)

Definition transferred (E : env) (file_url : str) : bool :=
  match http_get E file_url with
  | Transferred => true
  | Refused | Broken => false
  end.

(** The [try] body reaches the time lookup: the download succeeded and the
    extractor gave text. *)
Definition asks_time (unicode_alnum : char -> bool) (E : env)
    (file_url : str) : bool :=
  transferred E file_url
  && match text_for unicode_alnum E (resolve_extension E file_url) with
     | Some text => truthy (strip text)
     | None => false
     end.

Definition attempt_outcome (unicode_alnum : char -> bool) (E : env)
    (file_url application_id : str) (n : nat) : outcome result :=
  let file_extension := resolve_extension E file_url in
  if negb (transferred E file_url) then Raise (py "Failed to download file") else
  match text_for unicode_alnum E file_extension with
  | None => Raise (py "Unsupported file type: " ++ file_extension)
  | Some text =>
      if negb (truthy (strip text))
      then Raise (py "No text could be extracted from the file")
      else match world_time E n with
           | Ret timestamp =>
               Ret (succeeded_with application_id text file_extension timestamp)
           | Raise e => Raise e
           end
  end.

Definition run_outcome (unicode_alnum : char -> bool) (E : env)
    (file_url application_id : str) (n : nat) : outcome result :=
  match attempt_outcome unicode_alnum E file_url application_id n with
  | Ret r => Ret r
  | Raise e =>
      let n' := if asks_time unicode_alnum E file_url then S n else n in
      match world_time E n' with
      | Ret timestamp => Ret (failed application_id e timestamp)
      | Raise e' => Raise e'
      end
  end.

(** ** More sample inputs *)

Definition clock : nat -> outcome str :=
  fun _ => Ret (py "2024-05-01T10:00:00+00:00").

(** A time service that fails on the first lookup only. *)
Definition late_clock : nat -> outcome str :=
  fun n =>
    match n with
    | O => Raise (py "ConnectionError")
    | S _ => Ret (py "2024-05-01T10:00:00+00:00")
    end.

(** A run on the sample DOCX under a chosen extension, download and time
    service; the callback endpoint is down. *)
Definition sample (ext : str) (get : transfer) (time : nat -> outcome str) : env :=
  {| url_extension := fun _ => ext;
     head_content_type := fun _ => None;
     fresh_name := py "/tmp/tmpk3x9ab_c";
     http_get := fun _ => get;
     as_pdf := scanned_pdf;
     as_docx := Some jane_docx;
     antiword_run := Some (1%Z, py "not a Word document");
     world_time := time;
     http_post := fun _ _ => Raise (py "HTTPError") |}.

Definition sample_failure : result :=
  failed (py "41") (py "Failed to download file") (py "2024-05-01T10:00:00+00:00").

Definition sample_success : result :=
  succeeded_with (py "41")
    (py "Name: Jane Doe Skills: C, networking Email jx.com") (py ".docx")
    (py "2024-05-01T10:00:00+00:00").

(** The backends a run goes through: those of the PDF extractor when the
    file was downloaded and its extension is [.pdf], none otherwise. *)
Definition backends_of_run (unicode_alnum : char -> bool) (E : env)
    (file_url : str) : list backend :=
  if transferred E file_url
     && bool_decide (resolve_extension E file_url = py ".pdf")
  then snd (extract_text_from_pdf unicode_alnum (as_pdf E))
  else [].

(** The time lookups of a run: one, or two when text was extracted and the
    lookup of the success record raised. *)
Definition lookups_of_run (unicode_alnum : char -> bool) (E : env)
    (file_url : str) (n : nat) : nat :=
  if asks_time unicode_alnum E file_url
  then match world_time E n with Ret _ => 1 | Raise _ => 2 end
  else 1.

(** ** The script on a host that can refuse

    The definitions above run the script where the console takes every
    line, the URL parses and the temporary file can be created. Here the
    same script runs on a host where [print] can raise (the console cannot
    encode the line, the pipe is closed), and where [urlparse] and
    [NamedTemporaryFile], which sit before the [try], can raise. The pure
    parts (cleaner, page loops, extension) are the ones above. *)

Module Host.

(** The lines the helpers print in their [except] handlers; their texts
    are the libraries' and are not recorded. *)
Inductive diagnostic :=
| DownloadError
| BackendFailed (b : backend)
| DocxFailed
| DocFailed.

Record host := {
  surroundings : env;
  (** what [print] does with a line of the orchestrator: [Raise e] when it
      raises *)
  stdout : console -> outcome unit;
  (** the same for a line of a helper *)
  stdout_diagnostic : diagnostic -> outcome unit;
  (** [urlparse(file_url)]: [Some e] when it raises [ValueError] *)
  urlparse_error : str -> option str;
  (** [tempfile.NamedTemporaryFile(delete=False)]: [Some e] when it raises *)
  tempfile_error : option str
}.

Section Script.

Variable unicode_alnum : char -> bool.
Variable H : host.

Definition print (line : console) : M unit :=
  fun w =>
    match stdout H line with
    | Ret _ => emit (Print line) w
    | Raise e => (Raise e, w)
    end.

Definition diagnose (d : diagnostic) : M unit :=
  fun w =>
    match stdout_diagnostic H d with
    | Ret _ => (Ret tt, w)
    | Raise e => (Raise e, w)
    end.

(** [download_file]: the handler prints before it answers [False]. *)
Definition download_file (url filename : str) : M bool :=
  match http_get (surroundings H) url with
  | Transferred => create filename ;; ret true
  | Refused => diagnose DownloadError ;; ret false
  | Broken => create filename ;; diagnose DownloadError ;; ret false
  end.

(** The handler of a method runs when its [try] body raised. *)
Definition on_interrupt (a : attempt) (b : backend) : M unit :=
  match a with
  | Interrupted _ => diagnose (BackendFailed b)
  | Completed _ => ret tt
  end.

(** [extract_text_from_pdf], each backend entering the trace when it is
    tried. *)
Definition extract_text_from_pdf (f : pdf_file) : M str :=
  let text := [] in
  emit (Ran Pdfplumber) ;;
  let method1 := open_and_read (pdfplumber_pages f) text in
  if has_text method1 then ret (clean_text unicode_alnum (text_of method1)) else
  on_interrupt method1 Pdfplumber ;;
  let text := text_of method1 in
  emit (Ran PyPDF2) ;;
  let method2 := open_and_read (pypdf2_pages f) text in
  if has_text method2 then ret (clean_text unicode_alnum (text_of method2)) else
  on_interrupt method2 PyPDF2 ;;
  emit (Ran Pdftotext) ;;
  match pdftotext_run f with
  | Some (returncode, stdout) =>
      if (returncode =? 0)%Z && truthy (strip stdout)
      then ret (clean_text unicode_alnum stdout)
      else ret []
  | None => diagnose (BackendFailed Pdftotext) ;; ret []
  end.

Definition extract_text_from_docx (doc : option docx_document) : M str :=
  match doc with
  | Some _ => ret (extract_text_from_docx unicode_alnum doc)
  | None => diagnose DocxFailed ;; ret []
  end.

Definition extract_text_from_doc (run : option (Z * str)) : M str :=
  match run with
  | Some _ => ret (extract_text_from_doc unicode_alnum run)
  | None => diagnose DocFailed ;; ret []
  end.

(** The [with tempfile.NamedTemporaryFile(delete=False)] block: the file
    exists as soon as the block is entered, [urlparse] comes next, and
    whatever raises here leaves [process_file], the file staying behind. *)
Definition temporary_name (file_url : str) : M (str * str) :=
  match tempfile_error H with
  | Some e => raise e
  | None =>
      create (fresh_name (surroundings H)) ;;
      match urlparse_error H file_url with
      | Some e => raise e
      | None =>
          let tmp_filename := fresh_name (surroundings H) in
          let file_extension := resolve_extension (surroundings H) file_url in
          let tmp_filename :=
            if truthy file_extension then tmp_filename ++ file_extension
            else tmp_filename in
          ret (tmp_filename, file_extension)
      end
  end.

(** The body of the [try]. *)
Definition attempt_extraction
    (file_url application_id tmp_filename file_extension : str) : M result :=
  print (Downloading file_url) ;;
  ok <- download_file file_url tmp_filename ;;
  if negb ok then raise (py "Failed to download file") else
  extracted_text <-
    (if bool_decide (file_extension = py ".pdf") then
       print (ProcessingFormat (py "PDF")) ;;
       extract_text_from_pdf (as_pdf (surroundings H))
     else if bool_decide (file_extension = py ".docx") then
       print (ProcessingFormat (py "DOCX")) ;;
       extract_text_from_docx (as_docx (surroundings H))
     else if bool_decide (file_extension = py ".doc") then
       print (ProcessingFormat (py "DOC")) ;;
       extract_text_from_doc (antiword_run (surroundings H))
     else raise (py "Unsupported file type: " ++ file_extension)) ;;
  if negb (truthy (strip extracted_text))
  then raise (py "No text could be extracted from the file") else
  timestamp <- utc_datetime (surroundings H) ;;
  let result :=
    succeeded_with application_id extracted_text file_extension timestamp in
  print (ExtractionSuccessful (length extracted_text)) ;;
  print (FirstCharacters (take 200 extracted_text)) ;;
  ret result.

(** The [except Exception as e] handler. *)
Definition failure_result (application_id e : str) : M result :=
  timestamp <- utc_datetime (surroundings H) ;;
  let result := failed application_id e timestamp in
  print (ProcessingFailed e) ;;
  ret result.

(** The callback: the [try] holds two prints and the POST, the handler
    prints in its turn. *)
Definition send_result (callback_url auth_token : str) (r : result) : M unit :=
  try_except
    (print (SendingResult callback_url) ;;
     emit (Post callback_url auth_token r) ;;
     (fun w => (http_post (surroundings H) callback_url r, w)) ;;
     print CallbackSuccessful)
    (fun e => print (CallbackFailed e)).

Definition process_file
    (file_url application_id callback_url auth_token : str) : M result :=
  names <- temporary_name file_url ;;
  let '(tmp_filename, file_extension) := names in
  result <-
    try_finally
      (try_except
         (attempt_extraction file_url application_id tmp_filename file_extension)
         (failure_result application_id))
      (clean_up tmp_filename) ;;
  send_result callback_url auth_token result ;;
  ret result.

(** The entry: a [print] that raises is not caught, and the interpreter
    then exits with status 1. *)
Definition main (argv : list str) (w : world) : Z * world :=
  if negb (length argv =? 5)%nat then
    (1%Z, snd (print Usage w))
  else
    let file_url := nth 1 argv [] in
    let application_id := nth 2 argv [] in
    let callback_url := nth 3 argv [] in
    let auth_token := nth 4 argv [] in
    match process_file file_url application_id callback_url auth_token w with
    | (Ret result, w') =>
        if success result
        then match print CompletedSuccessfully w' with
             | (Ret _, w'') => (0%Z, w'')
             | (Raise _, w'') => (1%Z, w'')
             end
        else (1%Z, snd (print NotCompleted w'))
    | (Raise _, w') => (1%Z, w')
    end.

End Script.

(** A host that refuses nothing: the console takes every line, every URL
    parses and the temporary file can be created. *)
Definition quiet (H : host) : Prop :=
  (forall line, stdout H line = Ret tt) /\
  (forall d, stdout_diagnostic H d = Ret tt) /\
  (forall file_url, urlparse_error H file_url = None) /\
  tempfile_error H = None.

(** [e] is an exception the console raised on some line. *)
Definition refuses (H : host) (e : str) : Prop :=
  (exists line, stdout H line = Raise e) \/
  (exists d, stdout_diagnostic H d = Raise e).

(** A step that asks the time service nothing and raises only what the
    console raised. *)
Definition console_only {A} (H : host) (m : M A) : Prop :=
  forall w,
    lookups (snd (m w)) = lookups w /\
    forall e, fst (m w) = Raise e -> refuses H e.

End Host.

(** Sample hosts: one that refuses nothing, and one whose console is ASCII
    and refuses the two status lines of the entry point, which start with an
    emoji. *)
Definition calm (E : env) : Host.host :=
  {| Host.surroundings := E;
     Host.stdout := fun _ => Ret tt;
     Host.stdout_diagnostic := fun _ => Ret tt;
     Host.urlparse_error := fun _ => None;
     Host.tempfile_error := None |}.

Definition ascii_console (E : env) : Host.host :=
  {| Host.surroundings := E;
     Host.stdout :=
       fun line =>
         match line with
         | CompletedSuccessfully | NotCompleted =>
             Raise (py "'ascii' codec can't encode character")
         | _ => Ret tt
         end;
     Host.stdout_diagnostic := fun _ => Ret tt;
     Host.urlparse_error := fun _ => None;
     Host.tempfile_error := None |}.

(** The same host with another callback endpoint. *)
Definition with_callback (H : Host.host) (post : str -> result -> outcome unit)
    : Host.host :=
  {| Host.surroundings := with_post (Host.surroundings H) post;
     Host.stdout := Host.stdout H;
     Host.stdout_diagnostic := Host.stdout_diagnostic H;
     Host.urlparse_error := Host.urlparse_error H;
     Host.tempfile_error := Host.tempfile_error H |}.

(** A console that cannot encode the preview of the text (line 193). *)
Definition preview_refused (E : env) : Host.host :=
  {| Host.surroundings := E;
     Host.stdout :=
       fun line =>
         match line with
         | FirstCharacters _ => Raise (py "'charmap' codec can't encode character")
         | _ => Ret tt
         end;
     Host.stdout_diagnostic := fun _ => Ret tt;
     Host.urlparse_error := fun _ => None;
     Host.tempfile_error := None |}.

(** A URL [urlparse] raises on: the bracket of an IPv6 host is not closed. *)
Definition bracket_url : str := py "http://[::1/cv.pdf".

Definition strict_parser (E : env) : Host.host :=
  {| Host.surroundings := E;
     Host.stdout := fun _ => Ret tt;
     Host.stdout_diagnostic := fun _ => Ret tt;
     Host.urlparse_error :=
       fun file_url =>
         if bool_decide (file_url = bracket_url)
         then Some (py "Invalid IPv6 URL") else None;
     Host.tempfile_error := None |}.
Example clean_basic unicode_alnum :
  clean_text unicode_alnum (py "  Hello,   World!" ++ [newline; space]) = py "Hello, World".
Proof. reflexivity. Qed.

(** ** Facts about stripping *)

Section Strip.

Lemma dropwhile_suffix p (s : str) : exists t, s = t ++ dropwhile p s.
Proof.
  induction s as [|c s [t IH]]; simpl.
  - exists []. reflexivity.
  - destruct (p c).
    + exists (c :: t). simpl. congruence.
    + exists []. reflexivity.
Qed.

Lemma dropwhile_head p (s : str) c :
  head (dropwhile p s) = Some c -> p c = false.
Proof.
  induction s as [|a s IH]; simpl; [discriminate|].
  destruct (p a) eqn:Ha; [exact IH|].
  simpl. intros [= <-]. exact Ha.
Qed.

Lemma dropwhile_all p (s : str) :
  Forall (fun c => p c = true) s -> dropwhile p s = [].
Proof. induction 1 as [|c s Hc _ IH]; simpl; [|rewrite Hc]; auto. Qed.

Lemma dropwhile_nil_all p (s : str) :
  dropwhile p s = [] -> Forall (fun c => p c = true) s.
Proof.
  induction s as [|c s IH]; simpl; [constructor|].
  destruct (p c) eqn:Hc; [|discriminate]. auto.
Qed.

Lemma dropwhile_app_all p (u s : str) :
  Forall (fun c => p c = true) u -> dropwhile p (u ++ s) = dropwhile p s.
Proof. induction 1 as [|c u Hc _ IH]; simpl; [|rewrite Hc]; auto. Qed.

Lemma Forall_dropwhile (P : char -> Prop) p s :
  Forall P s -> Forall P (dropwhile p s).
Proof.
  destruct (dropwhile_suffix p s) as [t Ht]. intros H.
  rewrite Ht in H. apply Forall_app in H. tauto.
Qed.

Lemma rstrip_prefix s : exists t, s = rstrip s ++ t.
Proof.
  unfold rstrip. destruct (dropwhile_suffix is_space (rev s)) as [t Ht].
  exists (rev t). rewrite <- rev_app_distr, <- Ht. symmetry. apply rev_involutive.
Qed.

Lemma last_rev (s : str) : last (rev s) = head s.
Proof. destruct s as [|c s]; simpl; [reflexivity|]. apply last_snoc. Qed.

Lemma Forall_strip (P : char -> Prop) s : Forall P s -> Forall P (strip s).
Proof.
  intros H. unfold strip, rstrip, lstrip.
  apply Forall_rev, Forall_dropwhile, Forall_rev, Forall_dropwhile, H.
Qed.

Lemma strip_last s c : last (strip s) = Some c -> is_space c = false.
Proof. unfold strip, rstrip. rewrite last_rev. apply dropwhile_head. Qed.

Lemma strip_head s c : head (strip s) = Some c -> is_space c = false.
Proof.
  unfold strip. destruct (rstrip_prefix (lstrip s)) as [t Ht].
  destruct (rstrip (lstrip s)) as [|a u] eqn:Hu; simpl; [discriminate|].
  intros [= ->]. apply (dropwhile_head is_space s).
  fold (lstrip s). rewrite Ht. reflexivity.
Qed.

Lemma strip_nil_blank s : strip s = [] -> Forall (fun c => is_space c = true) s.
Proof.
  unfold strip, rstrip. intros H.
  apply (f_equal (@rev char)) in H. rewrite rev_involutive in H. simpl in H.
  apply dropwhile_nil_all, Forall_rev in H. rewrite rev_involutive in H.
  destruct (dropwhile_suffix is_space s) as [t Ht].
  fold (lstrip s) in Ht. rewrite Ht. apply Forall_app. split; [|exact H].
  clear H. revert t Ht. unfold lstrip.
  induction s as [|c s IH]; simpl; intros t Ht.
  - destruct t; [constructor|discriminate].
  - destruct (is_space c) eqn:Hc.
    + destruct t as [|a t]; simpl in Ht.
      * constructor.
      * injection Ht as <- Ht. constructor; [exact Hc|]. apply IH, Ht.
    + destruct t as [|a t]; [constructor|]. exfalso.
      simpl in Ht. injection Ht as <- Ht.
      apply (f_equal (@length char)) in Ht. rewrite length_app in Ht.
      simpl in Ht. lia.
Qed.

Lemma strip_app_blank u s :
  Forall (fun c => is_space c = true) u -> strip (u ++ s) = strip s.
Proof.
  intros H. unfold strip, lstrip. rewrite (dropwhile_app_all _ _ _ H). reflexivity.
Qed.

End Strip.

(** ** Facts about the cleaner *)

Section CleanerFacts.

Variable unicode_alnum : char -> bool.

Lemma sub_ws_only_spaces b s :
  Forall (fun c => is_space c = true -> c = space) (sub_ws b s).
Proof.
  revert b. induction s as [|c s IH]; intros b; simpl; [constructor|].
  destruct (is_space c) eqn:Hc.
  - destruct b; [apply IH|]. constructor; [reflexivity|apply IH].
  - constructor; [congruence|apply IH].
Qed.

Lemma sub_special_allowed s : Forall (fun c => allowed unicode_alnum c = true) (sub_special unicode_alnum s).
Proof. apply List.Forall_forall. intros c Hc. apply filter_In in Hc. tauto. Qed.

Lemma sub_special_keeps (P : char -> Prop) s :
  Forall P s -> Forall P (sub_special unicode_alnum s).
Proof.
  rewrite !List.Forall_forall. intros H c Hc. apply filter_In in Hc.
  apply H. tauto.
Qed.

Lemma allowed_clean_char c :
  allowed unicode_alnum c = true -> (is_space c = true -> c = space) ->
  clean_char unicode_alnum c.
Proof.
  unfold allowed, clean_char, is_punct. intros H Hs.
  destruct (is_word unicode_alnum c); [left; reflexivity|].
  destruct (is_space c); [right; left; auto|].
  right; right. cbn [orb] in H. apply existsb_exists in H as (x & Hx & Heq).
  apply N.eqb_eq in Heq. subst x. exact Hx.
Qed.

Lemma clean_text_form_holds x : clean_form unicode_alnum (clean_text unicode_alnum x).
Proof.
  unfold clean_text, clean_form.
  set (t := sub_special unicode_alnum (sub_ws false x)).
  assert (Hsp : Forall (fun c => is_space c = true -> c = space) t)
    by apply sub_special_keeps, sub_ws_only_spaces.
  assert (Hal : Forall (fun c => allowed unicode_alnum c = true) t)
    by apply sub_special_allowed.
  repeat split.
  - apply strip_head.
  - apply strip_last.
  - apply Forall_strip. rewrite List.Forall_forall in *.
    intros c Hc. apply allowed_clean_char; auto.
  - apply Forall_strip, Hsp.
Qed.

Lemma clean_form_nil : clean_form unicode_alnum [].
Proof. repeat split; try discriminate; constructor. Qed.

(** Whitespace in front of the raw text does not show in the result. *)
Lemma clean_after_blank b u s :
  Forall (fun c => is_space c = true) u ->
  strip (sub_special unicode_alnum (sub_ws b (u ++ s)))
  = strip (sub_special unicode_alnum (sub_ws true s)).
Proof.
  intros H. revert b. induction H as [|c u Hc _ IH]; intros b; simpl.
  - destruct b; [reflexivity|]. destruct s as [|c s]; simpl; [reflexivity|].
    destruct (is_space c) eqn:Hc; [|reflexivity].
    simpl. apply (strip_app_blank [space]).
    repeat constructor.
  - rewrite Hc. destruct b; [apply IH|].
    simpl. rewrite <- (IH true).
    apply (strip_app_blank [space]). repeat constructor.
Qed.

Lemma clean_text_app_blank u s :
  Forall (fun c => is_space c = true) u ->
  clean_text unicode_alnum (u ++ s) = clean_text unicode_alnum s.
Proof.
  intros H. unfold clean_text.
  rewrite (clean_after_blank false u s H).
  symmetry. apply (clean_after_blank false [] s). constructor.
Qed.

(** C10: the cleaner's output has no whitespace at either end, holds only
    word characters, ASCII spaces and the nine punctuation characters, and
    no whitespace but the ASCII space; every extractor returns the empty
    string or a cleaned text, so what it returns has that form too. *)
Theorem cleaned_output_form :
  (forall x, clean_form unicode_alnum (clean_text unicode_alnum x)) /\
  (forall f,
     let out := fst (extract_text_from_pdf unicode_alnum f) in
     (out = [] \/ exists raw, out = clean_text unicode_alnum raw) /\
     clean_form unicode_alnum out) /\
  (forall doc,
     let out := extract_text_from_docx unicode_alnum doc in
     (out = [] \/ exists raw, out = clean_text unicode_alnum raw) /\
     clean_form unicode_alnum out) /\
  (forall run,
     let out := extract_text_from_doc unicode_alnum run in
     (out = [] \/ exists raw, out = clean_text unicode_alnum raw) /\
     clean_form unicode_alnum out).
Proof.
  assert (Hout : forall out,
            out = [] \/ (exists raw, out = clean_text unicode_alnum raw) ->
            clean_form unicode_alnum out).
  { intros out [->|[raw ->]]; [apply clean_form_nil|apply clean_text_form_holds]. }
  split; [apply clean_text_form_holds|].
  split; [|split].
  - intros f out.
    assert (H : out = [] \/ exists raw, out = clean_text unicode_alnum raw).
    { subst out. unfold extract_text_from_pdf.
      destruct (has_text _); [right; eexists; reflexivity|].
      destruct (has_text _); [right; eexists; reflexivity|].
      destruct (pdftotext_run f) as [[returncode stdout]|]; [|left; reflexivity].
      destruct (_ && _); [right; eexists|left]; reflexivity. }
    split; [exact H|apply Hout, H].
  - intros doc out.
    assert (H : out = [] \/ exists raw, out = clean_text unicode_alnum raw).
    { subst out. destruct doc as [doc|]; [right; eexists|left]; reflexivity. }
    split; [exact H|apply Hout, H].
  - intros run out.
    assert (H : out = [] \/ exists raw, out = clean_text unicode_alnum raw).
    { subst out. destruct run as [[returncode stdout]|]; [|left; reflexivity].
      simpl. destruct (returncode =? 0)%Z; [right; eexists|left]; reflexivity. }
    split; [exact H|apply Hout, H].
Qed.

End CleanerFacts.

(** C4 fails on the code: a symbol between two spaces is removed after the
    whitespace runs were collapsed, which leaves two spaces side by side; a
    second pass collapses them, so the second pass changes the text. *)
Theorem clean_text_twice_differs unicode_alnum :
  clean_text unicode_alnum (py "a ! b") = py "a  b" /\
  clean_text unicode_alnum (clean_text unicode_alnum (py "a ! b")) = py "a b".
Proof. split; reflexivity. Qed.

(** ** The DOCX example *)

(** C8 as stated fails: the cleaned text of the example does not contain
    the four fragments, whatever the Unicode table. *)
Lemma docx_example_fragments_missing :
  ~ exists unicode_alnum,
      let out := extract_text_from_docx unicode_alnum (Some jane_docx) in
      contains (py "Name: Jane Doe") out
      && contains (py "Skills: C++, networking") out
      && contains (py "Email") out
      && contains (py "j@x.com") out = true.
Proof. intros [unicode_alnum H]. vm_compute in H. discriminate. Qed.

(** C8, amended: the cleaned text of the example is the two paragraphs and
    then the table row, cells joined by a space, with the characters outside
    the cleaner's class (the two [+] and the [@]) removed. *)
Theorem docx_example_cleaned unicode_alnum :
  extract_text_from_docx unicode_alnum (Some jane_docx)
  = py "Name: Jane Doe Skills: C, networking Email jx.com".
Proof. reflexivity. Qed.

(** ** The PDF fallback chain *)

Section PdfChain.

Variable unicode_alnum : char -> bool.

Lemma read_pages_prepend pages u text :
  read_pages pages (u ++ text) = prepend u (read_pages pages text).
Proof.
  revert text. induction pages as [|[[page_text|]|] rest IH]; intros text; simpl;
    try reflexivity; try apply IH.
  destruct (truthy page_text); [|apply IH].
  rewrite <- IH. f_equal. symmetry. apply app_assoc.
Qed.

Lemma open_and_read_prepend pages u :
  open_and_read pages u = prepend u (open_and_read pages []).
Proof.
  destruct pages as [pages|]; simpl.
  - rewrite <- read_pages_prepend. f_equal. symmetry. apply app_nil_r.
  - f_equal. symmetry. apply app_nil_r.
Qed.

Lemma has_text_prepend u a :
  Forall (fun c => is_space c = true) u -> has_text (prepend u a) = has_text a.
Proof. intros H. destruct a; simpl; [|reflexivity]. rewrite strip_app_blank; auto. Qed.

Lemma has_text_raw_output a : has_text a = succeeds raw_nonblank (raw_output a).
Proof. destruct a; reflexivity. Qed.

Lemma has_text_default a :
  has_text a = true -> default [] (raw_output a) = text_of a.
Proof. destruct a; simpl; [reflexivity|discriminate]. Qed.

Lemma truthy_false (s : str) : truthy s = false -> s = [].
Proof. destruct s; [reflexivity|discriminate]. Qed.

(** The order of the backends never changes, whatever the document. *)
Lemma backends_in_order f :
  snd (extract_text_from_pdf unicode_alnum f) `prefix_of` [Pdfplumber; PyPDF2; Pdftotext].
Proof.
  unfold extract_text_from_pdf.
  destruct (has_text _); [by exists [PyPDF2; Pdftotext]|].
  destruct (has_text _); [by exists [Pdftotext]|].
  destruct (pdftotext_run f) as [[rc out]|]; [destruct (_ && _)|];
    by exists [].
Qed.

Lemma blank_before_method2 f :
  (forall text,
     open_and_read (pdfplumber_pages f) [] = Interrupted text -> strip text = []) ->
  has_text (open_and_read (pdfplumber_pages f) []) = false ->
  Forall (fun c => is_space c = true) (text_of (open_and_read (pdfplumber_pages f) [])).
Proof.
  intros Hpartial Hno. apply strip_nil_blank.
  destruct (open_and_read (pdfplumber_pages f) []) as [text|text] eqn:Hrun; simpl in *.
  - apply truthy_false, Hno.
  - apply Hpartial. reflexivity.
Qed.

(** C5, amended: on every PDF input on which the layout-aware backend, if
    it raises, has appended nothing but whitespace before, the extractor
    tries the three backends in their fixed order and stops at the first
    one whose raw output has a character that is not whitespace, returning
    the cleaned form of that output; when no backend gives such output it
    returns the empty string, all three having run. *)
Theorem pdf_chain_first_raw_success f :
  (forall text,
     open_and_read (pdfplumber_pages f) [] = Interrupted text -> strip text = []) ->
  extract_text_from_pdf unicode_alnum f
  = first_success unicode_alnum raw_nonblank (strategies f).
Proof.
  intros Hpartial.
  unfold extract_text_from_pdf, strategies, pdfplumber_alone,
    pypdf2_alone, pdftotext_alone.
  cbn [first_success]. rewrite <- !has_text_raw_output.
  destruct (has_text (open_and_read (pdfplumber_pages f) [])) eqn:H1.
  { rewrite has_text_default by exact H1. reflexivity. }
  pose proof (blank_before_method2 f Hpartial H1) as Hblank.
  rewrite (open_and_read_prepend (pypdf2_pages f) (text_of _)).
  rewrite has_text_prepend by exact Hblank.
  destruct (has_text (open_and_read (pypdf2_pages f) [])) eqn:H2.
  { rewrite has_text_default by exact H2.
    destruct (open_and_read (pypdf2_pages f) []) as [text|text];
      [|discriminate].
    simpl. rewrite clean_text_app_blank by exact Hblank. reflexivity. }
  destruct (pdftotext_run f) as [[returncode stdout]|]; [|reflexivity].
  destruct (returncode =? 0)%Z; [|reflexivity].
  simpl. unfold raw_nonblank. destruct (truthy (strip stdout)); reflexivity.
Qed.

End PdfChain.

Lemma pdf_chain_first_raw_success_witness :
  (forall text,
     open_and_read (pdfplumber_pages faint_pdf) [] = Interrupted text ->
     strip text = []) /\
  extract_text_from_pdf no_table faint_pdf
  = first_success no_table raw_nonblank (strategies faint_pdf).
Proof.
  split.
  - intros text. vm_compute. discriminate.
  - apply (pdf_chain_first_raw_success no_table faint_pdf).
    intros text. vm_compute. discriminate.
Defined.

(** C5 as stated fails: the layout-aware backend returns nothing but
    symbols, so its cleaned text is empty, and yet the extractor stops there
    with the empty string; the first backend with a non-empty cleaned text
    would be the generic one. *)
Lemma pdf_chain_stops_on_symbols :
  ~ exists unicode_alnum,
      extract_text_from_pdf unicode_alnum symbols_pdf
      = first_success unicode_alnum (cleaned_nonempty unicode_alnum)
          (strategies symbols_pdf).
Proof. intros [unicode_alnum H]. vm_compute in H. discriminate. Qed.

(** C2 fails on the code: the layout-aware backend raises on its second
    page, the generic backend alone gives [B], and the extractor returns
    the text of both, without running the command-line backend. *)
Theorem fallback_keeps_failed_backend_text unicode_alnum :
  pdfplumber_alone partial_pdf = None /\
  first_success unicode_alnum raw_nonblank [(PyPDF2, pypdf2_alone partial_pdf)]
  = (py "B", [PyPDF2]) /\
  extract_text_from_pdf unicode_alnum partial_pdf
  = (py "A B", [Pdfplumber; PyPDF2]).
Proof. repeat split. Qed.

(** ** The orchestrator *)

Section OrchestratorFacts.

Variable unicode_alnum : char -> bool.
Variable E : env.

Lemma bind_ret_inv {A B} (m : M A) (k : A -> M B) w b w'' :
  bind m k w = (Ret b, w'') ->
  exists a w', m w = (Ret a, w') /\ k a w' = (Ret b, w'').
Proof.
  unfold bind. destruct (m w) as [[a|e] w']; [|discriminate]. eauto.
Qed.

Lemma emit_all_logged {A} (a : A) es w :
  fold_right (fun e k => emit e ;; k) (ret a) es w = (Ret a, logged es w).
Proof.
  revert w. induction es as [|e es IH]; intros w.
  - unfold logged. simpl. rewrite app_nil_r. destruct w; reflexivity.
  - simpl. unfold bind at 1. simpl. rewrite IH. unfold logged. simpl.
    rewrite <- app_assoc. reflexivity.
Qed.

Lemma run_pdf_logged w :
  run_pdf unicode_alnum E w
  = (Ret (fst (extract_text_from_pdf unicode_alnum (as_pdf E))),
     logged (map Ran (snd (extract_text_from_pdf unicode_alnum (as_pdf E)))) w).
Proof.
  unfold run_pdf.
  destruct (extract_text_from_pdf unicode_alnum (as_pdf E)) as [text ran]. simpl.
  rewrite <- emit_all_logged.
  assert (Hfold : forall l : list backend,
            fold_right (fun b k => emit (Ran b) ;; k) (ret text) l
            = fold_right (fun e k => emit e ;; k) (ret text) (map Ran l)).
  { induction l as [|b l IH]; simpl; [reflexivity|]. rewrite IH. reflexivity. }
  rewrite Hfold. reflexivity.
Qed.

Lemma attempt_extraction_well_formed file_url app tmp_filename ext w r w' :
  attempt_extraction unicode_alnum E file_url app tmp_filename ext w = (Ret r, w') ->
  success r = true /\ well_formed r.
Proof.
  unfold attempt_extraction. intros H.
  apply bind_ret_inv in H as (_ & w1 & _ & H).
  apply bind_ret_inv in H as (ok & w2 & _ & H).
  destruct ok; simpl in H; [|discriminate].
  apply bind_ret_inv in H as (text & w3 & _ & H).
  destruct (truthy (strip text)) eqn:Htext; simpl in H; [|discriminate].
  apply bind_ret_inv in H as (timestamp & w4 & _ & H).
  apply bind_ret_inv in H as (_ & w5 & _ & H).
  apply bind_ret_inv in H as (_ & w6 & _ & H).
  injection H as <- _. split; [reflexivity|]. intros _. simpl.
  exists text. repeat split. intros ->. discriminate.
Qed.

Lemma failure_result_fails app e w r w' :
  failure_result E app e w = (Ret r, w') -> success r = false /\ error r = Some e.
Proof.
  unfold failure_result. intros H.
  apply bind_ret_inv in H as (timestamp & w1 & _ & H).
  apply bind_ret_inv in H as (_ & w2 & _ & H).
  injection H as <- _. split; reflexivity.
Qed.

Lemma try_finally_ret_inv {A} (m : M A) f w a w'' :
  try_finally m f w = (Ret a, w'') -> exists w', m w = (Ret a, w').
Proof.
  unfold try_finally. destruct (m w) as [r w']. destruct (f w') as [[[]|e] w3];
    intros [= -> _]; eauto.
Qed.

Lemma try_except_ret_inv {A} (m : M A) h w a w'' :
  try_except m h w = (Ret a, w'') ->
  m w = (Ret a, w'') \/ exists e w', m w = (Raise e, w') /\ h e w' = (Ret a, w'').
Proof.
  unfold try_except. destruct (m w) as [[a'|e] w']; intros H; [left|right]; eauto.
Qed.

Lemma before_callback_unfold file_url app w :
  before_callback unicode_alnum E file_url app w
  = try_finally
      (try_except
         (attempt_extraction unicode_alnum E file_url app
            (working_name E file_url) (resolve_extension E file_url))
         (failure_result E app))
      (clean_up (working_name E file_url))
      (snd (create (fresh_name E) w)).
Proof. reflexivity. Qed.

(** What the guarded block returns was built by the [try] body or by the
    handler. *)
Lemma before_callback_returns file_url app w r w' :
  before_callback unicode_alnum E file_url app w = (Ret r, w') ->
  (exists tmp_filename ext w1 w2,
     attempt_extraction unicode_alnum E file_url app tmp_filename ext w1
     = (Ret r, w2)) \/
  (exists e w1 w2, failure_result E app e w1 = (Ret r, w2)).
Proof.
  rewrite before_callback_unfold. intros Htry.
  apply try_finally_ret_inv in Htry as (w4 & Htry).
  apply try_except_ret_inv in Htry as [Htry|(e & w5 & _ & Hh)]; [left|right]; eauto 6.
Qed.

Lemma process_file_split file_url app cb tok w :
  process_file unicode_alnum E file_url app cb tok w
  = (result <- before_callback unicode_alnum E file_url app ;;
     send_result E cb tok result ;; ret result) w.
Proof.
  unfold process_file, before_callback, bind.
  destruct (temporary_name E file_url w) as [[[tmp_filename ext]|e] w1]; reflexivity.
Qed.

Lemma send_result_total cb tok r w :
  exists w', send_result E cb tok r w = (Ret tt, w') /\ fs w' = fs w.
Proof.
  unfold send_result, bind. simpl.
  destruct (http_post E cb r) as [[]|e]; simpl; eauto.
Qed.

Lemma clean_up_total tmp_filename w :
  exists w', clean_up tmp_filename w = (Ret tt, w').
Proof.
  unfold clean_up, bind. simpl. destruct (bool_decide _); simpl; eauto.
Qed.

(** The callback's outcome does not reach the value [process_file] gives. *)
Lemma process_file_outcome file_url app cb tok w :
  fst (process_file unicode_alnum E file_url app cb tok w)
  = fst (before_callback unicode_alnum E file_url app w).
Proof.
  rewrite process_file_split. unfold bind.
  destruct (before_callback unicode_alnum E file_url app w) as [[r|e] w1];
    [|reflexivity].
  destruct (send_result_total cb tok r w1) as (w2 & -> & _). reflexivity.
Qed.

(** C6: every result [process_file] returns with [success] set carries a
    non-empty extracted text, and its [text_length] is the length of that
    text. *)
Theorem success_result_has_text file_url app cb tok w r w' :
  process_file unicode_alnum E file_url app cb tok w = (Ret r, w') ->
  success r = true ->
  exists text,
    extracted_text r = Some text /\ text <> [] /\
    text_length r = Some (length text).
Proof.
  intros H Hs. apply (f_equal fst) in H. rewrite process_file_outcome in H.
  destruct (before_callback unicode_alnum E file_url app w) as [r' w1] eqn:Hb.
  simpl in H. subst r'.
  apply before_callback_returns in Hb as [(t & x & w2 & w3 & H)|(e & w2 & w3 & H)].
  - apply attempt_extraction_well_formed in H as [_ H]. apply H, Hs.
  - apply failure_result_fails in H as [H _]. congruence.
Qed.

End OrchestratorFacts.

Lemma success_result_has_text_witness :
  exists r w',
    process_file no_table (online plain_pdf) cv_url (py "41") callback_url
      (py "secret") empty_world = (Ret r, w') /\
    success r = true /\
    exists text,
      extracted_text r = Some text /\ text <> [] /\
      text_length r = Some (length text).
Proof.
  eexists _, _. split; [vm_compute; reflexivity|]. split; [reflexivity|].
  eapply (success_result_has_text no_table (online plain_pdf) cv_url (py "41")
            callback_url (py "secret") empty_world);
    [vm_compute; reflexivity|reflexivity].
Defined.

(** ** What a run leaves behind *)

Section Keeps.

Variable P : world -> Prop.

Lemma keeps_ret {A} (a : A) : keeps P (ret a).
Proof. intros w H. exact H. Qed.

Lemma keeps_raise {A} e : keeps P (@raise A e).
Proof. intros w H. exact H. Qed.

Lemma keeps_bind {A B} (m : M A) (k : A -> M B) :
  keeps P m -> (forall a, keeps P (k a)) -> keeps P (bind m k).
Proof.
  intros Hm Hk w H. unfold bind. specialize (Hm w H).
  destruct (m w) as [[a|e] w']; simpl in *; [apply Hk, Hm|exact Hm].
Qed.

Lemma keeps_try_except {A} (m : M A) h :
  keeps P m -> (forall e, keeps P (h e)) -> keeps P (try_except m h).
Proof.
  intros Hm Hh w H. unfold try_except. specialize (Hm w H).
  destruct (m w) as [[a|e] w']; simpl in *; [exact Hm|apply Hh, Hm].
Qed.

Lemma keeps_try_finally {A} (m : M A) f :
  keeps P m -> keeps P f -> keeps P (try_finally m f).
Proof.
  intros Hm Hf w H. unfold try_finally. specialize (Hm w H).
  destruct (m w) as [r w']; simpl in *. specialize (Hf w' Hm).
  destruct (f w') as [[[]|e] w'']; exact Hf.
Qed.

Lemma keeps_exists_path path : keeps P (exists_path path).
Proof. intros w H. exact H. Qed.

(** The steps of the guarded block, for a property that survives what
    the block does to the world: printing, running a backend, creating and
    removing the working file, asking the time. *)
Variable unicode_alnum : char -> bool.
Variable E : env.
Variable tmp_filename : str.

Hypothesis keeps_print : forall line, keeps P (print line).
Hypothesis keeps_ran : forall b, keeps P (emit (Ran b)).
Hypothesis keeps_create : keeps P (create tmp_filename).
Hypothesis keeps_unlink : keeps P (unlink tmp_filename).
Hypothesis keeps_lookup : keeps P (utc_datetime E).

Lemma keeps_download_file url : keeps P (download_file E url tmp_filename).
Proof.
  unfold download_file. destruct (http_get E url);
    repeat (apply keeps_bind; [|intros ?]); auto using @keeps_ret.
Qed.

Lemma keeps_run_pdf : keeps P (run_pdf unicode_alnum E).
Proof.
  unfold run_pdf.
  destruct (extract_text_from_pdf unicode_alnum (as_pdf E)) as [text ran].
  induction ran as [|b ran IH]; simpl; [apply keeps_ret|].
  apply keeps_bind; [apply keeps_ran|intros _; exact IH].
Qed.

Lemma keeps_attempt_extraction url app ext :
  keeps P (attempt_extraction unicode_alnum E url app tmp_filename ext).
Proof.
  unfold attempt_extraction.
  apply keeps_bind; [apply keeps_print|intros _].
  apply keeps_bind; [apply keeps_download_file|intros ok].
  destruct ok; simpl; [|apply keeps_raise].
  apply keeps_bind.
  { repeat case_bool_decide;
      try (apply keeps_bind; [apply keeps_print|intros _]);
      auto using keeps_run_pdf, @keeps_ret, @keeps_raise. }
  intros text. destruct (truthy (strip text)); simpl; [|apply keeps_raise].
  apply keeps_bind; [apply keeps_lookup|intros timestamp].
  apply keeps_bind; [apply keeps_print|intros _].
  apply keeps_bind; [apply keeps_print|intros _].
  apply keeps_ret.
Qed.

Lemma keeps_failure_result app e : keeps P (failure_result E app e).
Proof.
  unfold failure_result.
  apply keeps_bind; [apply keeps_lookup|intros timestamp].
  apply keeps_bind; [apply keeps_print|intros _].
  apply keeps_ret.
Qed.

Lemma keeps_clean_up : keeps P (clean_up tmp_filename).
Proof.
  unfold clean_up. apply keeps_bind; [apply keeps_exists_path|intros present].
  destruct present; [apply keeps_unlink|apply keeps_ret].
Qed.

Lemma keeps_guarded_block url app ext :
  keeps P
    (try_finally
       (try_except
          (attempt_extraction unicode_alnum E url app tmp_filename ext)
          (failure_result E app))
       (clean_up tmp_filename)).
Proof.
  apply keeps_try_finally; [|apply keeps_clean_up].
  apply keeps_try_except; [apply keeps_attempt_extraction|].
  intros e. apply keeps_failure_result.
Qed.

End Keeps.

Section Runs.

Variable unicode_alnum : char -> bool.
Variable E : env.

Lemma app_nonempty_differs (s t : str) : truthy t = true -> s <> s ++ t.
Proof.
  intros Ht Heq. apply (f_equal (@length char)) in Heq.
  rewrite length_app in Heq. destruct t; [discriminate|]. simpl in Heq. lia.
Qed.

Lemma posts_logged_print line w : posts (snd (print line w)) = posts w.
Proof. unfold posts. simpl. rewrite omap_app. simpl. apply app_nil_r. Qed.

Lemma posts_logged_ran b w : posts (snd (emit (Ran b) w)) = posts w.
Proof. unfold posts. simpl. rewrite omap_app. simpl. apply app_nil_r. Qed.

(** The guarded block attempts no callback. *)
Lemma before_callback_posts file_url app w :
  posts (snd (before_callback unicode_alnum E file_url app w)) = posts w.
Proof.
  rewrite before_callback_unfold.
  apply (keeps_guarded_block (fun w' => posts w' = posts w) unicode_alnum E
           (working_name E file_url)); try (intros w' <-; reflexivity).
  - intros line w' <-. apply posts_logged_print.
  - intros b w' <-. apply posts_logged_ran.
  - reflexivity.
Qed.

(** The guarded block leaves the file of the fresh name in place when the
    working name carries an extension. *)
Lemma before_callback_fresh_name file_url app w :
  truthy (resolve_extension E file_url) = true ->
  fresh_name E ∈ fs (snd (before_callback unicode_alnum E file_url app w)).
Proof.
  intros Hext. rewrite before_callback_unfold.
  assert (Hne : fresh_name E <> working_name E file_url).
  { unfold working_name. rewrite Hext. apply app_nonempty_differs, Hext. }
  apply (keeps_guarded_block (fun w' => fresh_name E ∈ fs w') unicode_alnum E
           (working_name E file_url)); try (intros ? w' Hw'; exact Hw');
    try (intros w' Hw'; simpl; set_solver).
  simpl. set_solver.
Qed.

Lemma utc_datetime_answer w ts w' :
  utc_datetime E w = (Ret ts, w') -> world_time E (lookups w) = Ret ts.
Proof. unfold utc_datetime. intros [= -> _]. reflexivity. Qed.

Lemma attempt_extraction_needs_time file_url app tmp_filename ext w r w' :
  attempt_extraction unicode_alnum E file_url app tmp_filename ext w = (Ret r, w') ->
  exists n ts, world_time E n = Ret ts.
Proof.
  unfold attempt_extraction. intros H.
  apply bind_ret_inv in H as (_ & w1 & _ & H).
  apply bind_ret_inv in H as (ok & w2 & _ & H).
  destruct ok; simpl in H; [|discriminate].
  apply bind_ret_inv in H as (text & w3 & _ & H).
  destruct (truthy (strip text)); simpl in H; [|discriminate].
  apply bind_ret_inv in H as (timestamp & w4 & Ht & _).
  apply utc_datetime_answer in Ht. eauto.
Qed.

Lemma failure_result_needs_time app e w r w' :
  failure_result E app e w = (Ret r, w') -> exists n ts, world_time E n = Ret ts.
Proof.
  unfold failure_result. intros H.
  apply bind_ret_inv in H as (timestamp & w1 & Ht & _).
  apply utc_datetime_answer in Ht. eauto.
Qed.

(** C1 fails on the code: whenever the file type is resolved to a non-empty
    extension, the file [NamedTemporaryFile] created under the fresh name
    is still there when [process_file] is over, whatever the outcome; only
    the file under the name with the extension is removed. *)
Theorem temporary_file_left_behind file_url app cb tok w :
  truthy (resolve_extension E file_url) = true ->
  fresh_name E ∈ fs (snd (process_file unicode_alnum E file_url app cb tok w)).
Proof.
  intros Hext. rewrite process_file_split. unfold bind.
  pose proof (before_callback_fresh_name file_url app w Hext) as Hb.
  destruct (before_callback unicode_alnum E file_url app w) as [[r|e] w1];
    simpl in *; [|exact Hb].
  destruct (send_result_total E cb tok r w1) as (w2 & -> & Hfs). simpl.
  rewrite Hfs. exact Hb.
Qed.

(** C3 fails on the code: with the time service out of reach, the handler
    that builds the failure record raises in its turn, [process_file] ends
    with that exception and the callback is never attempted. *)
Theorem no_callback_when_time_service_down file_url app cb tok w :
  (forall n, exists e, world_time E n = Raise e) ->
  exists e w',
    process_file unicode_alnum E file_url app cb tok w = (Raise e, w') /\
    posts w' = posts w.
Proof.
  intros Hdown. rewrite process_file_split. unfold bind.
  pose proof (before_callback_posts file_url app w) as Hposts.
  destruct (before_callback unicode_alnum E file_url app w) as [[r|e] w1] eqn:Hb.
  - exfalso.
    apply before_callback_returns in Hb
      as [(t & x & w2 & w3 & H)|(e & w2 & w3 & H)];
      [apply attempt_extraction_needs_time in H
      |apply failure_result_needs_time in H];
      destruct H as (n & ts & Hn); destruct (Hdown n) as [e' He'];
      congruence.
  - eauto.
Qed.

End Runs.

Lemma temporary_file_left_behind_witness :
  truthy (resolve_extension (online plain_pdf) cv_url) = true /\
  fresh_name (online plain_pdf)
  ∈ fs (snd (process_file no_table (online plain_pdf) cv_url (py "41")
               callback_url (py "secret") empty_world)).
Proof.
  split; [reflexivity|].
  apply (temporary_file_left_behind no_table (online plain_pdf)). reflexivity.
Defined.

Lemma no_callback_when_time_service_down_witness :
  (forall n, exists e, world_time offline n = Raise e) /\
  exists e w',
    process_file no_table offline cv_url (py "41") callback_url (py "secret")
      empty_world = (Raise e, w') /\
    posts w' = posts empty_world.
Proof.
  split; [intros n; eexists; reflexivity|].
  apply (no_callback_when_time_service_down no_table offline).
  intros n. eexists. reflexivity.
Defined.

(** ** A PDF without text *)

Section NoText.

Variable unicode_alnum : char -> bool.
Variable E : env.

Lemma nothing_extracted :
  (forall text,
     open_and_read (pdfplumber_pages (as_pdf E)) [] = Interrupted text ->
     strip text = []) ->
  Forall (fun s => succeeds raw_nonblank (snd s) = false) (strategies (as_pdf E)) ->
  extract_text_from_pdf unicode_alnum (as_pdf E)
  = ([], [Pdfplumber; PyPDF2; Pdftotext]).
Proof.
  intros Hpartial Hnone. unfold strategies in Hnone.
  apply Forall_cons in Hnone as [H1 Hnone].
  apply Forall_cons in Hnone as [H2 Hnone].
  apply Forall_cons in Hnone as [H3 _].
  unfold pdfplumber_alone, pypdf2_alone, pdftotext_alone in *. simpl in *.
  rewrite <- has_text_raw_output in H1, H2.
  unfold extract_text_from_pdf. rewrite H1.
  rewrite (open_and_read_prepend (pypdf2_pages (as_pdf E)) (text_of _)).
  rewrite has_text_prepend, H2 by (apply blank_before_method2; assumption).
  destruct (pdftotext_run (as_pdf E)) as [[returncode stdout]|]; [|reflexivity].
  destruct (returncode =? 0)%Z; [|reflexivity].
  simpl in *. unfold raw_nonblank in H3. rewrite H3. reflexivity.
Qed.

Lemma attempt_extraction_no_text file_url app tmp_filename ran w :
  http_get E file_url = Transferred ->
  extract_text_from_pdf unicode_alnum (as_pdf E) = ([], ran) ->
  exists w',
    attempt_extraction unicode_alnum E file_url app tmp_filename (py ".pdf") w
    = (Raise (py "No text could be extracted from the file"), w') /\
    lookups w' = lookups w.
Proof.
  intros Hget Hnone. unfold attempt_extraction, download_file.
  rewrite Hget. unfold bind at 1. simpl.
  unfold bind at 1. simpl. unfold bind at 1. simpl.
  unfold bind at 1. simpl. rewrite run_pdf_logged, Hnone. simpl.
  eexists. split; reflexivity.
Qed.

Lemma failure_result_built app e ts w :
  world_time E (lookups w) = Ret ts ->
  exists w', failure_result E app e w = (Ret (failed app e ts), w').
Proof.
  intros Hts. unfold failure_result, bind, utc_datetime. rewrite Hts. simpl.
  eexists. reflexivity.
Qed.


End NoText.



(** ** Exit status *)

Section ExitStatus.

Variable unicode_alnum : char -> bool.

Lemma main_status E argv w :
  fst (main unicode_alnum E argv w)
  = if negb (length argv =? 5)%nat then 1%Z
    else match fst (process_file unicode_alnum E (nth 1 argv []) (nth 2 argv [])
                      (nth 3 argv []) (nth 4 argv []) w) with
         | Ret r => if success r then 0%Z else 1%Z
         | Raise _ => 1%Z
         end.
Proof.
  unfold main. destruct (negb _); [reflexivity|].
  destruct (process_file _ _ _ _ _ _ _) as [[r|e] w']; simpl; [|reflexivity].
  destruct (success r); reflexivity.
Qed.

Lemma process_file_any_post E post file_url app cb tok w :
  fst (process_file unicode_alnum (with_post E post) file_url app cb tok w)
  = fst (process_file unicode_alnum E file_url app cb tok w).
Proof. rewrite !process_file_outcome. reflexivity. Qed.

(** On a console that takes every line: the exit status is 1 when the
    argument count is wrong; with four arguments it is 0 exactly when
    [process_file] returns a result with [success] set, and 1 otherwise;
    and whatever the callback endpoint does, the value [process_file]
    gives and the exit status are the same. *)
Lemma exit_status_calm E :
  (forall argv w,
     length argv <> 5%nat -> fst (main unicode_alnum E argv w) = 1%Z) /\
  (forall script file_url app cb tok w,
     let status := fst (main unicode_alnum E [script; file_url; app; cb; tok] w) in
     let succeeded :=
       exists r,
         fst (process_file unicode_alnum E file_url app cb tok w) = Ret r /\
         success r = true in
     (status = 0%Z <-> succeeded) /\ (status = 1%Z <-> ~ succeeded)) /\
  (forall post argv file_url app cb tok w,
     fst (process_file unicode_alnum (with_post E post) file_url app cb tok w)
     = fst (process_file unicode_alnum E file_url app cb tok w) /\
     fst (main unicode_alnum (with_post E post) argv w)
     = fst (main unicode_alnum E argv w)).
Proof.
  split; [|split].
  - intros argv w Hlen. rewrite main_status.
    destruct (Nat.eqb_spec (length argv) 5); [contradiction|reflexivity].
  - intros script file_url app cb tok w status succeeded. subst status succeeded.
    rewrite main_status. simpl.
    destruct (fst (process_file unicode_alnum E file_url app cb tok w)) as [r|e].
    + destruct (success r) eqn:Hs; split.
      * split; [intros _; exists r; auto|reflexivity].
      * split; [discriminate|intros H; exfalso; apply H; eauto].
      * split; [discriminate|intros (r' & [= <-] & Hr'); congruence].
      * split; [intros _ (r' & [= <-] & Hr'); congruence|reflexivity].
    + split.
      * split; [discriminate|intros (r' & Hr' & _); discriminate].
      * split; [intros _ (r' & Hr' & _); discriminate|reflexivity].
  - intros post argv file_url app cb tok w. split.
    + apply process_file_any_post.
    + rewrite !main_status. rewrite process_file_any_post. reflexivity.
Qed.

End ExitStatus.


(** ** More on the cleaner *)

Section CleanerMore.

Variable unicode_alnum : char -> bool.

Lemma single_spaced_cons a s :
  single_spaced (a :: s) <->
  (forall b, head s = Some b -> is_space a = true -> is_space b = false) /\
  single_spaced s.
Proof.
  split.
  - intros H. split.
    + intros b Hb. destruct s as [|b' s]; [discriminate|].
      injection Hb as ->. apply (H [] a b s). reflexivity.
    + intros u x y v ->. apply (H (a :: u) x y v). reflexivity.
  - intros [Hhead Htail] u x y v Heq. destruct u as [|c u]; simpl in Heq.
    + injection Heq as <- ->. apply Hhead. reflexivity.
    + injection Heq as <- ->. apply (Htail u x y v). reflexivity.
Qed.

Lemma single_spaced_nil : single_spaced [].
Proof. intros [|c u] a b v H; discriminate. Qed.

Lemma single_spaced_infix p s q : single_spaced (p ++ s ++ q) -> single_spaced s.
Proof.
  intros H u a b v ->. apply (H (p ++ u) a b (v ++ q)).
  rewrite <- !app_assoc. reflexivity.
Qed.

Lemma strip_infix s : exists p q, s = p ++ strip s ++ q.
Proof.
  destruct (dropwhile_suffix is_space s) as [p Hp].
  destruct (rstrip_prefix (lstrip s)) as [q Hq].
  exists p, q. unfold strip. rewrite <- Hq. exact Hp.
Qed.

(** The whitespace substitution leaves no two whitespace characters side by
    side, and starts with none when it is inside a run. *)
Lemma sub_ws_single_spaced b s :
  single_spaced (sub_ws b s) /\
  (b = true -> forall c, head (sub_ws b s) = Some c -> is_space c = false).
Proof.
  revert b. induction s as [|a s IH]; intros b; simpl.
  - split; [apply single_spaced_nil|discriminate].
  - destruct (is_space a) eqn:Ha.
    + destruct b.
      * apply IH.
      * split; [|discriminate]. apply single_spaced_cons. split.
        -- intros c Hc _. apply (proj2 (IH true) eq_refl c Hc).
        -- apply IH.
    + split.
      * apply single_spaced_cons. split; [congruence|apply IH].
      * intros _ c [= <-]. exact Ha.
Qed.

Lemma sub_ws_allowed b s :
  Forall (fun c => allowed unicode_alnum c = true) s ->
  Forall (fun c => allowed unicode_alnum c = true) (sub_ws b s).
Proof.
  intros H. revert b. induction H as [|a s Ha _ IH]; intros b; simpl;
    [constructor|].
  destruct (is_space a); [destruct b|]; auto.
Qed.

Lemma filter_all (p : char -> bool) s :
  Forall (fun c => p c = true) s -> List.filter p s = s.
Proof. induction 1 as [|a s Ha _ IH]; simpl; [|rewrite Ha, IH]; reflexivity. Qed.

(** A text without special characters comes out single-spaced. *)
Lemma clean_text_single_spaced x :
  Forall (fun c => allowed unicode_alnum c = true) x ->
  single_spaced (clean_text unicode_alnum x).
Proof.
  intros H. unfold clean_text, sub_special.
  rewrite filter_all by apply sub_ws_allowed, H.
  destruct (strip_infix (sub_ws false x)) as (p & q & Hpq).
  apply (single_spaced_infix p _ q). rewrite <- Hpq. apply sub_ws_single_spaced.
Qed.

Lemma sub_ws_fixed b s :
  Forall (fun c => is_space c = true -> c = space) s ->
  single_spaced s ->
  (b = true -> forall c, head s = Some c -> is_space c = false) ->
  sub_ws b s = s.
Proof.
  intros Hsp. revert b. induction Hsp as [|a s Ha _ IH]; intros b Hss Hb;
    simpl; [reflexivity|].
  apply single_spaced_cons in Hss as [Hhead Htail].
  destruct (is_space a) eqn:Hsa.
  - destruct b; [specialize (Hb eq_refl a eq_refl); congruence|].
    rewrite Ha by reflexivity. f_equal. apply IH; [exact Htail|].
    intros _ c Hc. apply Hhead; [exact Hc|reflexivity].
  - f_equal. apply IH; [exact Htail|discriminate].
Qed.

Lemma clean_char_allowed c :
  clean_char unicode_alnum c -> allowed unicode_alnum c = true.
Proof.
  unfold clean_char, allowed. intros [->|[->|H]]; [reflexivity|reflexivity|].
  destruct (is_word unicode_alnum c); [reflexivity|].
  destruct (is_space c); [reflexivity|]. simpl.
  apply existsb_exists. exists c. split; [exact H|apply N.eqb_refl].
Qed.

Lemma dropwhile_fixed p (s : str) :
  (forall c, head s = Some c -> p c = false) -> dropwhile p s = s.
Proof. destruct s as [|a s]; simpl; [reflexivity|]. intros H. rewrite H; reflexivity. Qed.

Lemma strip_fixed s :
  (forall c, head s = Some c -> is_space c = false) ->
  (forall c, last s = Some c -> is_space c = false) ->
  strip s = s.
Proof.
  intros Hh Hl. unfold strip, rstrip, lstrip.
  rewrite (dropwhile_fixed _ s Hh).
  rewrite dropwhile_fixed; [apply rev_involutive|].
  intros c Hc. apply Hl. rewrite <- (rev_involutive s). rewrite last_rev. exact Hc.
Qed.

(** The cleaner leaves alone a text that has its shape and is
    single-spaced. *)
Lemma clean_text_fixed s :
  clean_form unicode_alnum s -> single_spaced s -> clean_text unicode_alnum s = s.
Proof.
  intros (Hh & Hl & Hc & Hsp) Hss. unfold clean_text, sub_special.
  rewrite (sub_ws_fixed false s Hsp Hss) by discriminate.
  rewrite filter_all
    by (eapply Forall_impl; [exact Hc|apply clean_char_allowed]).
  apply strip_fixed; assumption.
Qed.

(** X1: on a text that holds no character outside the cleaner's class, a
    second pass of the cleaner changes nothing. *)
Theorem clean_text_idempotent_on_class x :
  Forall (fun c => allowed unicode_alnum c = true) x ->
  clean_text unicode_alnum (clean_text unicode_alnum x) = clean_text unicode_alnum x.
Proof.
  intros H. apply clean_text_fixed.
  - apply clean_text_form_holds.
  - apply clean_text_single_spaced, H.
Qed.

(** X2: on every text, a third pass of the cleaner changes nothing. *)
Theorem clean_text_third_pass x :
  clean_text unicode_alnum (clean_text unicode_alnum (clean_text unicode_alnum x))
  = clean_text unicode_alnum (clean_text unicode_alnum x).
Proof.
  apply clean_text_fixed.
  - apply clean_text_form_holds.
  - apply clean_text_single_spaced.
    destruct (clean_text_form_holds unicode_alnum x) as (_ & _ & Hc & _).
    eapply Forall_impl; [exact Hc|apply clean_char_allowed].
Qed.

End CleanerMore.

Lemma clean_text_idempotent_on_class_witness :
  Forall (fun c => allowed no_table c = true) (py " Jane  Doe, (C) ") /\
  clean_text no_table (clean_text no_table (py " Jane  Doe, (C) "))
  = clean_text no_table (py " Jane  Doe, (C) ").
Proof.
  assert (H : Forall (fun c => allowed no_table c = true) (py " Jane  Doe, (C) "))
    by (repeat constructor).
  split; [exact H|]. apply (clean_text_idempotent_on_class no_table _ H).
Defined.

Section CleanerSize.

Variable unicode_alnum : char -> bool.

Lemma sub_ws_length b s : (length (sub_ws b s) <= length s)%nat.
Proof.
  revert b. induction s as [|a s IH]; intros b; simpl; [lia|].
  pose proof (IH true). pose proof (IH false).
  destruct (is_space a); [destruct b|]; simpl; lia.
Qed.

Lemma dropwhile_length p (s : str) : (length (dropwhile p s) <= length s)%nat.
Proof.
  destruct (dropwhile_suffix p s) as [t Ht]. rewrite Ht at 2.
  rewrite length_app. lia.
Qed.

Lemma strip_length s : (length (strip s) <= length s)%nat.
Proof.
  unfold strip, rstrip, lstrip. rewrite length_rev.
  etransitivity; [apply dropwhile_length|]. rewrite length_rev.
  apply dropwhile_length.
Qed.

(** X3: the cleaner never returns more characters than it was given. *)
Theorem clean_text_never_longer x :
  (length (clean_text unicode_alnum x) <= length x)%nat.
Proof.
  unfold clean_text, sub_special.
  etransitivity; [apply strip_length|].
  etransitivity; [apply List.filter_length_le|]. apply sub_ws_length.
Qed.

Lemma strip_all_blank s : Forall (fun c => is_space c = true) s -> strip s = [].
Proof.
  intros H. unfold strip, lstrip. rewrite (dropwhile_all _ _ H). reflexivity.
Qed.

Lemma kept_blank_iff b x :
  Forall (fun c => is_space c = true) (sub_special unicode_alnum (sub_ws b x)) <->
  Forall (fun c => is_space c = true \/ allowed unicode_alnum c = false) x.
Proof.
  revert b. induction x as [|a x IH]; intros b; simpl.
  - split; constructor.
  - rewrite Forall_cons. destruct (is_space a) eqn:Ha.
    + destruct b; simpl.
      * rewrite IH. tauto.
      * rewrite Forall_cons, IH. split; [intros [_ H]|intros [_ H]]; auto.
    + simpl. destruct (allowed unicode_alnum a) eqn:Hal.
      * rewrite Forall_cons. split; [intros [H _]|intros [[H|H] _]]; congruence.
      * rewrite IH. tauto.
Qed.

(** X4: the cleaner returns the empty string exactly when every character
    of its input is whitespace or outside the class it keeps. *)
Theorem clean_text_empty_iff x :
  clean_text unicode_alnum x = [] <->
  Forall (fun c => is_space c = true \/ allowed unicode_alnum c = false) x.
Proof.
  rewrite <- (kept_blank_iff false). unfold clean_text. split.
  - apply strip_nil_blank.
  - apply strip_all_blank.
Qed.

End CleanerSize.

(** ** More on the extractors *)

Section ExtractorsMore.

Variable unicode_alnum : char -> bool.

Lemma fold_left_app_flat_map {A} (f : A -> str) l text :
  fold_left (fun text x => text ++ f x) l text = text ++ flat_map f l.
Proof.
  revert text. induction l as [|x l IH]; intros text; simpl.
  - symmetry. apply app_nil_r.
  - rewrite IH. symmetry. apply app_assoc.
Qed.

Lemma add_table_flat_map table text :
  add_table text table
  = text ++ flat_map
              (fun row => flat_map (fun cell => cell ++ [space]) row ++ [newline])
              table.
Proof.
  unfold add_table. rewrite <- fold_left_app_flat_map.
  revert text. induction table as [|row table IH]; intros text; simpl;
    [reflexivity|].
  rewrite <- IH. f_equal. unfold add_row, add_cell.
  rewrite fold_left_app_flat_map. symmetry. apply app_assoc.
Qed.

Lemma add_tables_flat_map tables text :
  fold_left add_table tables text
  = text ++ flat_map
              (fun table =>
                 flat_map
                   (fun row =>
                      flat_map (fun cell => cell ++ [space]) row ++ [newline])
                   table)
              tables.
Proof.
  revert text. induction tables as [|table rest IH]; intros text; simpl.
  - symmetry. apply app_nil_r.
  - rewrite IH, add_table_flat_map. symmetry. apply app_assoc.
Qed.

(** X5: the DOCX extractor returns the cleaned form of: every paragraph
    followed by a line break, in document order, then every table, row by
    row, every cell followed by a space and every row by a line break. *)
Theorem extract_text_from_docx_joined doc :
  extract_text_from_docx unicode_alnum (Some doc)
  = clean_text unicode_alnum (docx_raw doc).
Proof.
  unfold extract_text_from_docx, docx_raw. f_equal.
  unfold add_paragraph. rewrite fold_left_app_flat_map. simpl.
  apply add_tables_flat_map.
Qed.

(** X6: a PDF page loop appends, for every page that returns a non-empty
    string, that string and a line break, and nothing for a page that
    returns [None] or the empty string; a page that raises ends the loop
    with what was appended before it, whatever the pages after it hold. *)
Theorem read_pages_joined texts text :
  read_pages (map PageText texts) text
  = Completed (text ++ flat_map page_line texts) /\
  forall rest,
    read_pages (map PageText texts ++ PageError :: rest) text
    = Interrupted (text ++ flat_map page_line texts).
Proof.
  revert text. induction texts as [|[t|] texts IH]; intros text; simpl.
  - rewrite app_nil_r. split; reflexivity.
  - destruct (truthy t); simpl.
    + destruct (IH (text ++ t ++ [newline])) as [H1 H2].
      assert (Heq : (text ++ t ++ [newline]) ++ flat_map page_line texts
                    = text ++ (t ++ [newline]) ++ flat_map page_line texts)
        by (rewrite <- !app_assoc; reflexivity).
      rewrite <- Heq. split; [exact H1|exact H2].
    + apply IH.
  - apply IH.
Qed.

End ExtractorsMore.

(** ** More on the orchestrator *)

Section OrchestratorMore.

Variable unicode_alnum : char -> bool.
Variable E : env.

Lemma bind_raise_inv {A B} (m : M A) (k : A -> M B) w e w'' :
  bind m k w = (Raise e, w'') ->
  m w = (Raise e, w'') \/ exists a w', m w = (Ret a, w') /\ k a w' = (Raise e, w'').
Proof.
  unfold bind. destruct (m w) as [[a|e'] w']; intros H;
    [right; exists a, w'; split; [reflexivity|exact H]
    |left; injection H as -> ->; reflexivity].
Qed.

Lemma bind_ret_run {A B} (m : M A) (k : A -> M B) w a w' :
  m w = (Ret a, w') -> bind m k w = k a w'.
Proof. unfold bind. intros ->. reflexivity. Qed.

Lemma bind_raise_run {A B} (m : M A) (k : A -> M B) w e w' :
  m w = (Raise e, w') -> bind m k w = (Raise e, w').
Proof. unfold bind. intros ->. reflexivity. Qed.

Lemma send_result_posts cb tok r w :
  posts (snd (send_result E cb tok r w)) = posts w ++ [(cb, tok, r)].
Proof.
  unfold send_result, bind, posts. simpl.
  destruct (http_post E cb r) as [[]|e]; simpl;
    rewrite !omap_app; simpl; rewrite !app_nil_r; reflexivity.
Qed.


Lemma clean_up_removes {A} (m : M A) tmp_filename w :
  tmp_filename ∉ fs (snd (try_finally m (clean_up tmp_filename) w)).
Proof.
  unfold try_finally. destruct (m w) as [r w1].
  unfold clean_up, bind, exists_path. simpl.
  case_bool_decide; simpl; [|assumption].
  intros [_ Hout]%elem_of_difference. apply Hout, elem_of_singleton. reflexivity.
Qed.

Lemma before_callback_fs file_url app w :
  fs (snd (before_callback unicode_alnum E file_url app w))
  = ({[fresh_name E]} ∪ fs w) ∖ {[working_name E file_url]}.
Proof.
  rewrite before_callback_unfold.
  pose proof (clean_up_removes
                (try_except
                   (attempt_extraction unicode_alnum E file_url app
                      (working_name E file_url) (resolve_extension E file_url))
                   (failure_result E app))
                (working_name E file_url) (snd (create (fresh_name E) w))) as Hgone.
  assert (Hkept :
    fs (snd (try_finally
               (try_except
                  (attempt_extraction unicode_alnum E file_url app
                     (working_name E file_url) (resolve_extension E file_url))
                  (failure_result E app))
               (clean_up (working_name E file_url))
               (snd (create (fresh_name E) w))))
    ∖ {[working_name E file_url]}
    = ({[fresh_name E]} ∪ fs w) ∖ {[working_name E file_url]}).
  { apply (keeps_guarded_block
             (fun w' => fs w' ∖ {[working_name E file_url]}
                        = ({[fresh_name E]} ∪ fs w) ∖ {[working_name E file_url]})
             unicode_alnum E (working_name E file_url)).
    - intros line w' Hw'. exact Hw'.
    - intros b w' Hw'. exact Hw'.
    - intros w' Hw'. simpl.
      rewrite difference_union_distr_l_L, difference_diag_L, union_empty_l_L.
      exact Hw'.
    - intros w' Hw'. simpl. rewrite difference_twice_L. exact Hw'.
    - intros w' Hw'. exact Hw'.
    - reflexivity. }
  rewrite <- Hkept. symmetry. apply difference_disjoint_L.
  apply disjoint_singleton_r. exact Hgone.
Qed.


Lemma try_finally_clean_up_outcome {A} (m : M A) tmp_filename w :
  fst (try_finally m (clean_up tmp_filename) w) = fst (m w).
Proof.
  unfold try_finally. destruct (m w) as [r w1].
  destruct (clean_up_total tmp_filename w1) as (w2 & ->). reflexivity.
Qed.

Lemma failure_result_outcome app e w :
  fst (failure_result E app e w)
  = match world_time E (lookups w) with
    | Ret timestamp => Ret (failed app e timestamp)
    | Raise e' => Raise e'
    end.
Proof.
  unfold failure_result, bind, utc_datetime.
  destruct (world_time E (lookups w)); reflexivity.
Qed.

(** The extractor chosen for the extension, run in the world. *)
Lemma extractor_step ext (k : str -> M result) w :
  exists w1,
    lookups w1 = lookups w /\
    bind
      (if bool_decide (ext = py ".pdf") then
         print (ProcessingFormat (py "PDF")) ;; run_pdf unicode_alnum E
       else if bool_decide (ext = py ".docx") then
         print (ProcessingFormat (py "DOCX")) ;;
         ret (extract_text_from_docx unicode_alnum (as_docx E))
       else if bool_decide (ext = py ".doc") then
         print (ProcessingFormat (py "DOC")) ;;
         ret (extract_text_from_doc unicode_alnum (antiword_run E))
       else raise (py "Unsupported file type: " ++ ext)) k w
    = match text_for unicode_alnum E ext with
      | Some text => k text w1
      | None => (Raise (py "Unsupported file type: " ++ ext), w1)
      end.
Proof.
  unfold text_for. repeat case_bool_decide.
  - eexists. split; [|unfold bind at 1; unfold bind at 1; simpl;
                       rewrite run_pdf_logged; reflexivity]. reflexivity.
  - eexists. split; [|unfold bind at 1; unfold bind at 1; simpl; reflexivity].
    reflexivity.
  - eexists. split; [|unfold bind at 1; unfold bind at 1; simpl; reflexivity].
    reflexivity.
  - exists w. split; reflexivity.
Qed.

Lemma download_file_run file_url filename w :
  exists w1,
    download_file E file_url filename w = (Ret (transferred E file_url), w1) /\
    lookups w1 = lookups w.
Proof.
  unfold download_file, transferred.
  destruct (http_get E file_url); eexists; split; reflexivity.
Qed.

Lemma attempt_extraction_outcome file_url app tmp_filename w :
  exists w1,
    attempt_extraction unicode_alnum E file_url app tmp_filename
      (resolve_extension E file_url) w
    = (attempt_outcome unicode_alnum E file_url app (lookups w), w1) /\
    lookups w1
    = if asks_time unicode_alnum E file_url then S (lookups w) else lookups w.
Proof.
  unfold attempt_extraction, attempt_outcome, asks_time.
  erewrite bind_ret_run by reflexivity.
  destruct (download_file_run file_url tmp_filename
              (snd (print (Downloading file_url) w))) as (w1 & Hd & Hl1).
  rewrite (bind_ret_run _ _ _ _ _ Hd).
  destruct (transferred E file_url); cbn [negb andb];
    [|exists w1; split; [reflexivity|exact Hl1]].
  match goal with
  | |- context [bind _ ?k w1] =>
      destruct (extractor_step (resolve_extension E file_url) k w1)
        as (w2 & Hl2 & ->)
  end.
  rewrite Hl1 in Hl2.
  destruct (text_for unicode_alnum E (resolve_extension E file_url)) as [text|];
    [|exists w2; split; [reflexivity|exact Hl2]].
  destruct (truthy (strip text)); cbn [negb];
    [|exists w2; split; [reflexivity|exact Hl2]].
  unfold bind, utc_datetime. rewrite Hl2. simpl lookups.
  destruct (world_time E (lookups w)); eexists; split; reflexivity.
Qed.

(** The value [process_file] gives is the one of the table. *)
Lemma process_file_table file_url app cb tok w :
  fst (process_file unicode_alnum E file_url app cb tok w)
  = run_outcome unicode_alnum E file_url app (lookups w).
Proof.
  rewrite process_file_outcome, before_callback_unfold,
    try_finally_clean_up_outcome.
  unfold try_except, run_outcome.
  destruct (attempt_extraction_outcome file_url app (working_name E file_url)
              (snd (create (fresh_name E) w))) as (w1 & -> & Hl).
  simpl in *.
  destruct (attempt_outcome unicode_alnum E file_url app (lookups w));
    [reflexivity|].
  rewrite failure_result_outcome, Hl. reflexivity.
Qed.

End OrchestratorMore.

(** ** The outcomes of a run *)

Section Outcomes.

Variable unicode_alnum : char -> bool.
Variable E : env.

Lemma transferred_true file_url :
  http_get E file_url = Transferred -> transferred E file_url = true.
Proof. unfold transferred. intros ->. reflexivity. Qed.

Lemma transferred_false file_url :
  http_get E file_url <> Transferred -> transferred E file_url = false.
Proof. unfold transferred. destruct (http_get E file_url); congruence. Qed.

Lemma truthy_true (s : str) : s <> [] -> truthy s = true.
Proof. destruct s; [contradiction|reflexivity]. Qed.

Lemma text_for_none ext :
  text_for unicode_alnum E ext = None <-> ~ In ext supported.
Proof.
  unfold text_for, supported. cbn [In].
  repeat case_bool_decide; intuition congruence.
Qed.

Lemma text_for_some ext text :
  text_for unicode_alnum E ext = Some text -> In ext supported.
Proof.
  unfold text_for, supported. cbn [In].
  repeat case_bool_decide; intuition congruence.
Qed.

Lemma text_for_clean_form ext text :
  text_for unicode_alnum E ext = Some text -> clean_form unicode_alnum text.
Proof.
  unfold text_for. repeat case_bool_decide; intros [= <-].
  - unfold extract_text_from_pdf.
    destruct (has_text _); [apply clean_text_form_holds|].
    destruct (has_text _); [apply clean_text_form_holds|].
    destruct (pdftotext_run (as_pdf E)) as [[returncode stdout]|];
      [|apply clean_form_nil].
    destruct (_ && _); [apply clean_text_form_holds|apply clean_form_nil].
  - destruct (as_docx E); [apply clean_text_form_holds|apply clean_form_nil].
  - destruct (antiword_run E) as [[returncode stdout]|]; [|apply clean_form_nil].
    simpl. destruct (returncode =? 0)%Z;
      [apply clean_text_form_holds|apply clean_form_nil].
Qed.




(** The results the table can give. *)
Lemma run_outcome_ret file_url app n r :
  run_outcome unicode_alnum E file_url app n = Ret r ->
  (exists text ts,
     r = succeeded_with app text (resolve_extension E file_url) ts /\
     http_get E file_url = Transferred /\
     text_for unicode_alnum E (resolve_extension E file_url) = Some text /\
     strip text <> [] /\
     world_time E n = Ret ts) \/
  (exists e ts m,
     r = failed app e ts /\ world_time E m = Ret ts /\
     (e = py "Failed to download file" /\ http_get E file_url <> Transferred \/
      e = py "Unsupported file type: " ++ resolve_extension E file_url /\
      ~ In (resolve_extension E file_url) supported \/
      e = py "No text could be extracted from the file" \/
      world_time E n = Raise e)).
Proof.
  unfold run_outcome, attempt_outcome, asks_time, transferred.
  destruct (http_get E file_url) eqn:Hget; cbn [negb andb].
  - destruct (text_for unicode_alnum E (resolve_extension E file_url))
      as [text|] eqn:Htext.
    + destruct (truthy (strip text)) eqn:Hfull; cbn [negb].
      * destruct (world_time E n) as [ts|e] eqn:Hn.
        -- intros [= <-]. left. exists text, ts. repeat split; auto.
           intros Hnil. rewrite Hnil in Hfull. discriminate.
        -- destruct (world_time E (S n)) as [ts|e'] eqn:Hn'; [|discriminate].
           intros [= <-]. right. exists e, ts, (S n).
           split; [reflexivity|]. split; [exact Hn'|]. do 3 right. reflexivity.
      * destruct (world_time E n) as [ts|e'] eqn:Hn; [|discriminate].
        intros [= <-]. right. eexists _, ts, n.
        split; [reflexivity|]. split; [exact Hn|]. do 2 right. left.
        reflexivity.
    + destruct (world_time E n) as [ts|e'] eqn:Hn; [|discriminate].
      intros [= <-]. right. eexists _, ts, n. apply text_for_none in Htext.
      split; [reflexivity|]. split; [exact Hn|]. right. left.
      split; [reflexivity|exact Htext].
  - destruct (world_time E n) as [ts|e'] eqn:Hn; [|discriminate].
    intros [= <-]. right. eexists _, ts, n. split; [reflexivity|].
    split; [exact Hn|]. left. split; [reflexivity|discriminate].
  - destruct (world_time E n) as [ts|e'] eqn:Hn; [|discriminate].
    intros [= <-]. right. eexists _, ts, n. split; [reflexivity|].
    split; [exact Hn|]. left. split; [reflexivity|discriminate].
Qed.

(** X14: every result [process_file] returns carries the application
    identifier it was given, the method [github_actions] and a timestamp
    the time service answered; [extracted_text], [file_type] and
    [text_length] are present exactly when [success] is set, and [error]
    exactly when it is not. *)
Theorem returned_result_shape file_url app cb tok w r :
  fst (process_file unicode_alnum E file_url app cb tok w) = Ret r ->
  application_id r = app /\
  fst (processing_info r) = py "github_actions" /\
  (exists n, world_time E n = Ret (snd (processing_info r))) /\
  if success r
  then is_Some (extracted_text r) /\ is_Some (file_type r) /\
       is_Some (text_length r) /\ error r = None
  else extracted_text r = None /\ file_type r = None /\
       text_length r = None /\ is_Some (error r).
Proof.
  rewrite process_file_table. intros H.
  apply run_outcome_ret in H
    as [(text & ts & -> & _ & _ & _ & Hn)|(e & ts & m & -> & Hm & _)]; simpl;
    repeat split; eauto.
Qed.

(** X15: a result with [success] set means that the file was downloaded,
    that its extension is one of [.pdf], [.docx], [.doc] and is the file
    type of the result, and that the text of the result is what the
    extractor of that extension returned, in the cleaner's form. *)
Theorem success_means_supported_and_clean file_url app cb tok w r :
  fst (process_file unicode_alnum E file_url app cb tok w) = Ret r ->
  success r = true ->
  http_get E file_url = Transferred /\
  In (resolve_extension E file_url) supported /\
  file_type r = Some (resolve_extension E file_url) /\
  exists text,
    extracted_text r = Some text /\
    text_for unicode_alnum E (resolve_extension E file_url) = Some text /\
    clean_form unicode_alnum text.
Proof.
  rewrite process_file_table. intros H Hs.
  apply run_outcome_ret in H
    as [(text & ts & -> & Hget & Htext & _ & _)|(e & ts & m & -> & _)];
    [|discriminate].
  split; [exact Hget|]. split.
  - eapply text_for_some, Htext.
  - split; [reflexivity|]. exists text.
    split; [reflexivity|]. split; [exact Htext|].
    eapply text_for_clean_form, Htext.
Qed.

End Outcomes.




Lemma returned_result_shape_witness :
  fst (process_file no_table (sample (py ".docx") Refused clock) cv_url (py "41")
         callback_url (py "secret") empty_world) = Ret sample_failure /\
  application_id sample_failure = py "41" /\
  fst (processing_info sample_failure) = py "github_actions" /\
  (exists n,
     world_time (sample (py ".docx") Refused clock) n
     = Ret (snd (processing_info sample_failure))) /\
  if success sample_failure
  then is_Some (extracted_text sample_failure) /\
       is_Some (file_type sample_failure) /\
       is_Some (text_length sample_failure) /\ error sample_failure = None
  else extracted_text sample_failure = None /\ file_type sample_failure = None /\
       text_length sample_failure = None /\ is_Some (error sample_failure).
Proof.
  assert (H : fst (process_file no_table (sample (py ".docx") Refused clock)
                     cv_url (py "41") callback_url (py "secret") empty_world)
              = Ret sample_failure) by (vm_compute; reflexivity).
  split; [exact H|].
  exact (returned_result_shape no_table _ _ _ _ _ _ _ H).
Defined.

Lemma success_means_supported_and_clean_witness :
  fst (process_file no_table (sample (py ".docx") Transferred clock) cv_url
         (py "41") callback_url (py "secret") empty_world) = Ret sample_success /\
  success sample_success = true /\
  http_get (sample (py ".docx") Transferred clock) cv_url = Transferred /\
  In (resolve_extension (sample (py ".docx") Transferred clock) cv_url) supported /\
  file_type sample_success
  = Some (resolve_extension (sample (py ".docx") Transferred clock) cv_url) /\
  exists text,
    extracted_text sample_success = Some text /\
    text_for no_table (sample (py ".docx") Transferred clock)
      (resolve_extension (sample (py ".docx") Transferred clock) cv_url)
    = Some text /\
    clean_form no_table text.
Proof.
  assert (H : fst (process_file no_table (sample (py ".docx") Transferred clock)
                     cv_url (py "41") callback_url (py "secret") empty_world)
              = Ret sample_success) by (vm_compute; reflexivity).
  split; [exact H|]. split; [reflexivity|].
  exact (success_means_supported_and_clean no_table _ _ _ _ _ _ _ H eq_refl).
Defined.

(** ** The resolver, the download and the entry point *)

Section Edges.

Variable unicode_alnum : char -> bool.
Variable E : env.




End Edges.



(** ** What a run consumes *)

Section Footprint.

Variable unicode_alnum : char -> bool.
Variable E : env.

Lemma backends_run_logged_ran ran w :
  backends_run (logged (map Ran ran) w) = backends_run w ++ ran.
Proof.
  unfold backends_run, logged. simpl. rewrite omap_app. f_equal.
  induction ran as [|b ran IH]; [reflexivity|].
  cbn [map omap list_omap]. f_equal. exact IH.
Qed.

Lemma backends_run_print line w :
  backends_run (snd (print line w)) = backends_run w.
Proof. unfold backends_run. simpl. rewrite omap_app. simpl. apply app_nil_r. Qed.

Lemma download_file_quiet url filename w :
  backends_run (snd (download_file E url filename w)) = backends_run w.
Proof. unfold download_file. destruct (http_get E url); reflexivity. Qed.

(** The backends the extractor step enters in the trace. *)
Lemma extractor_step_backends ext (k : str -> M result) w :
  exists w1,
    backends_run w1
    = backends_run w
      ++ (if bool_decide (ext = py ".pdf")
          then snd (extract_text_from_pdf unicode_alnum (as_pdf E)) else []) /\
    lookups w1 = lookups w /\
    bind
      (if bool_decide (ext = py ".pdf") then
         print (ProcessingFormat (py "PDF")) ;; run_pdf unicode_alnum E
       else if bool_decide (ext = py ".docx") then
         print (ProcessingFormat (py "DOCX")) ;;
         ret (extract_text_from_docx unicode_alnum (as_docx E))
       else if bool_decide (ext = py ".doc") then
         print (ProcessingFormat (py "DOC")) ;;
         ret (extract_text_from_doc unicode_alnum (antiword_run E))
       else raise (py "Unsupported file type: " ++ ext)) k w
    = match text_for unicode_alnum E ext with
      | Some text => k text w1
      | None => (Raise (py "Unsupported file type: " ++ ext), w1)
      end.
Proof.
  unfold text_for. repeat case_bool_decide.
  - eexists. split; [|split].
    3: { unfold bind at 1; unfold bind at 1; simpl.
         rewrite run_pdf_logged. reflexivity. }
    + rewrite backends_run_logged_ran. f_equal.
      unfold backends_run. simpl. rewrite omap_app. simpl. apply app_nil_r.
    + reflexivity.
  - eexists. split; [|split].
    3: { unfold bind at 1; unfold bind at 1; simpl. reflexivity. }
    + unfold backends_run. simpl. rewrite omap_app. reflexivity.
    + reflexivity.
  - eexists. split; [|split].
    3: { unfold bind at 1; unfold bind at 1; simpl. reflexivity. }
    + unfold backends_run. simpl. rewrite omap_app. reflexivity.
    + reflexivity.
  - exists w. split; [symmetry; apply app_nil_r|]. split; reflexivity.
Qed.

Lemma attempt_extraction_world file_url app tmp_filename w :
  backends_run
    (snd (attempt_extraction unicode_alnum E file_url app tmp_filename
            (resolve_extension E file_url) w))
  = backends_run w ++ backends_of_run unicode_alnum E file_url /\
  lookups
    (snd (attempt_extraction unicode_alnum E file_url app tmp_filename
            (resolve_extension E file_url) w))
  = if asks_time unicode_alnum E file_url then S (lookups w) else lookups w.
Proof.
  unfold attempt_extraction, backends_of_run, asks_time.
  erewrite bind_ret_run by reflexivity.
  pose proof (download_file_quiet file_url tmp_filename
                (snd (print (Downloading file_url) w))) as Hq.
  rewrite backends_run_print in Hq.
  destruct (download_file_run E file_url tmp_filename
              (snd (print (Downloading file_url) w))) as (w1 & Hd & Hl1).
  rewrite Hd in Hq. cbn [snd] in Hq.
  rewrite (bind_ret_run _ _ _ _ _ Hd).
  destruct (transferred E file_url); cbn [negb andb];
    [|cbn [raise snd]; rewrite app_nil_r; split; assumption].
  match goal with
  | |- context [bind _ ?k w1] =>
      destruct (extractor_step_backends (resolve_extension E file_url) k w1)
        as (w2 & Hb2 & Hl2 & ->)
  end.
  rewrite Hq in Hb2. rewrite Hl1 in Hl2.
  destruct (text_for unicode_alnum E (resolve_extension E file_url)) as [text|];
    [|cbn [snd]; split; assumption].
  destruct (truthy (strip text)); cbn [negb];
    [|cbn [raise snd]; split; assumption].
  unfold bind, utc_datetime.
  destruct (world_time E (lookups w2)) as [ts|e]; cbn [snd fst]; split.
  - unfold backends_run in *. simpl. rewrite !omap_app. simpl.
    rewrite !app_nil_r. exact Hb2.
  - simpl. rewrite Hl2. reflexivity.
  - exact Hb2.
  - simpl. rewrite Hl2. reflexivity.
Qed.

Lemma failure_result_world app e w :
  backends_run (snd (failure_result E app e w)) = backends_run w /\
  lookups (snd (failure_result E app e w)) = S (lookups w).
Proof.
  unfold failure_result, bind, utc_datetime, backends_run.
  destruct (world_time E (lookups w)); simpl; rewrite ?omap_app; simpl;
    rewrite ?app_nil_r; split; reflexivity.
Qed.

Lemma clean_up_world tmp_filename w :
  backends_run (snd (clean_up tmp_filename w)) = backends_run w /\
  lookups (snd (clean_up tmp_filename w)) = lookups w.
Proof.
  unfold clean_up, bind, exists_path. cbn [fst snd].
  case_bool_decide; split; reflexivity.
Qed.

Lemma send_result_world cb tok r w :
  backends_run (snd (send_result E cb tok r w)) = backends_run w /\
  lookups (snd (send_result E cb tok r w)) = lookups w.
Proof.
  unfold send_result, bind, backends_run. simpl.
  destruct (http_post E cb r) as [[]|e]; simpl;
    rewrite !omap_app; simpl; rewrite !app_nil_r; split; reflexivity.
Qed.

Lemma try_finally_world {A} (m : M A) tmp_filename w :
  backends_run (snd (try_finally m (clean_up tmp_filename) w))
  = backends_run (snd (m w)) /\
  lookups (snd (try_finally m (clean_up tmp_filename) w)) = lookups (snd (m w)).
Proof.
  unfold try_finally. destruct (m w) as [r w1].
  pose proof (clean_up_world tmp_filename w1) as [Hb Hl].
  destruct (clean_up tmp_filename w1) as [[[]|e] w2]; exact (conj Hb Hl).
Qed.

Lemma before_callback_world file_url app w :
  backends_run (snd (before_callback unicode_alnum E file_url app w))
  = backends_run w ++ backends_of_run unicode_alnum E file_url /\
  lookups (snd (before_callback unicode_alnum E file_url app w))
  = (lookups w + lookups_of_run unicode_alnum E file_url (lookups w))%nat.
Proof.
  rewrite before_callback_unfold.
  destruct (try_finally_world
              (try_except
                 (attempt_extraction unicode_alnum E file_url app
                    (working_name E file_url) (resolve_extension E file_url))
                 (failure_result E app))
              (working_name E file_url) (snd (create (fresh_name E) w)))
    as [-> ->].
  set (w0 := snd (create (fresh_name E) w)).
  pose proof (attempt_extraction_world file_url app (working_name E file_url) w0)
    as [Hb Hl].
  destruct (attempt_extraction_outcome unicode_alnum E file_url app
              (working_name E file_url) w0) as (w1 & Hrun & _).
  unfold try_except. rewrite Hrun in *. cbn [snd] in *.
  change (backends_run w0) with (backends_run w) in Hb.
  change (lookups w0) with (lookups w) in *.
  unfold lookups_of_run. unfold attempt_outcome, asks_time in *.
  destruct (transferred E file_url); cbn [negb andb] in *.
  - destruct (text_for unicode_alnum E (resolve_extension E file_url))
      as [text|].
    + destruct (truthy (strip text)); cbn [negb] in *.
      * destruct (world_time E (lookups w)).
        -- cbn [snd]. split; [exact Hb|lia].
        -- destruct (failure_result_world app e w1) as [-> ->].
           split; [exact Hb|lia].
      * destruct (failure_result_world app
                    (py "No text could be extracted from the file") w1)
          as [-> ->].
        split; [exact Hb|lia].
    + destruct (failure_result_world app
                  (py "Unsupported file type: " ++ resolve_extension E file_url)
                  w1) as [-> ->].
      split; [exact Hb|lia].
  - destruct (failure_result_world app (py "Failed to download file") w1)
      as [-> ->].
    split; [exact Hb|lia].
Qed.


(** On a console that takes every line: a run asks the time service once;
    it asks twice exactly when text was extracted and the lookup made for
    the success record raised. *)
Lemma time_lookups_of_run_calm file_url app cb tok w :
  lookups (snd (process_file unicode_alnum E file_url app cb tok w))
  = (lookups w + lookups_of_run unicode_alnum E file_url (lookups w))%nat.
Proof.
  rewrite process_file_split. unfold bind.
  pose proof (before_callback_world file_url app w) as [_ Hl].
  destruct (before_callback unicode_alnum E file_url app w) as [[r|e] w1];
    cbn [snd] in *; [|exact Hl].
  pose proof (send_result_world cb tok r w1) as [_ Hs].
  destruct (send_result E cb tok r w1) as [[[]|e] w2]; cbn [snd ret] in *;
    rewrite Hs; exact Hl.
Qed.

End Footprint.

(** * The script on a host that can refuse *)

(** Two computations that agree step by step agree when sequenced. *)
Lemma bind_agree {A B} (m m' : M A) (k k' : A -> M B) w :
  m w = m' w ->
  (forall a w1, k a w1 = k' a w1) ->
  bind m k w = bind m' k' w.
Proof.
  intros Hm Hk. unfold bind. rewrite Hm.
  destruct (m' w) as [[a|e] w1]; [apply Hk|reflexivity].
Qed.

Lemma try_except_agree {A} (m m' : M A) (h h' : str -> M A) w :
  m w = m' w ->
  (forall e w1, h e w1 = h' e w1) ->
  try_except m h w = try_except m' h' w.
Proof.
  intros Hm Hh. unfold try_except. rewrite Hm.
  destruct (m' w) as [[a|e] w1]; [reflexivity|apply Hh].
Qed.

Lemma try_finally_agree {A} (m m' : M A) (f : M unit) w :
  m w = m' w -> try_finally m f w = try_finally m' f w.
Proof. intros Hm. unfold try_finally. rewrite Hm. reflexivity. Qed.

(** ** On a host that refuses nothing, the run is the one of the script
    above in the host's surroundings *)

Section QuietHost.

Variable unicode_alnum : char -> bool.
Variable H : Host.host.
Hypothesis Hquiet : Host.quiet H.

Lemma quiet_print line w : Host.print H line w = print line w.
Proof.
  unfold Host.print. destruct Hquiet as [Hout _]. rewrite Hout. reflexivity.
Qed.

Lemma quiet_diagnose d w : Host.diagnose H d w = (Ret tt, w).
Proof.
  unfold Host.diagnose. destruct Hquiet as (_ & Hdiag & _). rewrite Hdiag.
  reflexivity.
Qed.

Lemma quiet_download_file url filename w :
  Host.download_file H url filename w
  = download_file (Host.surroundings H) url filename w.
Proof.
  unfold Host.download_file, download_file.
  destruct (http_get (Host.surroundings H) url); [reflexivity| |];
    unfold bind; rewrite ?quiet_diagnose;
    try (destruct (create filename w) as [[[]|e] w1]; rewrite ?quiet_diagnose);
    reflexivity.
Qed.

Lemma quiet_on_interrupt a b w : Host.on_interrupt H a b w = (Ret tt, w).
Proof. destruct a; [reflexivity|apply quiet_diagnose]. Qed.

Lemma quiet_extract_text_from_pdf w :
  Host.extract_text_from_pdf unicode_alnum H (as_pdf (Host.surroundings H)) w
  = run_pdf unicode_alnum (Host.surroundings H) w.
Proof.
  unfold Host.extract_text_from_pdf, run_pdf, extract_text_from_pdf.
  generalize (as_pdf (Host.surroundings H)). intros f.
  unfold bind at 1. cbn [emit].
  destruct (has_text (open_and_read (pdfplumber_pages f) [])); [reflexivity|].
  unfold bind at 1. rewrite quiet_on_interrupt.
  unfold bind at 1. cbn [emit].
  destruct (has_text
              (open_and_read (pypdf2_pages f)
                 (text_of (open_and_read (pdfplumber_pages f) []))));
    [reflexivity|].
  unfold bind at 1. rewrite quiet_on_interrupt.
  unfold bind at 1. cbn [emit].
  destruct (pdftotext_run f) as [[returncode stdout]|].
  - destruct ((returncode =? 0)%Z && truthy (strip stdout)); reflexivity.
  - unfold bind at 1. rewrite quiet_diagnose. reflexivity.
Qed.

Lemma quiet_extract_text_from_docx w :
  Host.extract_text_from_docx unicode_alnum H (as_docx (Host.surroundings H)) w
  = ret (extract_text_from_docx unicode_alnum (as_docx (Host.surroundings H))) w.
Proof.
  unfold Host.extract_text_from_docx.
  destruct (as_docx (Host.surroundings H)); [reflexivity|].
  unfold bind. rewrite quiet_diagnose. reflexivity.
Qed.

Lemma quiet_extract_text_from_doc w :
  Host.extract_text_from_doc unicode_alnum H (antiword_run (Host.surroundings H)) w
  = ret (extract_text_from_doc unicode_alnum (antiword_run (Host.surroundings H))) w.
Proof.
  unfold Host.extract_text_from_doc.
  destruct (antiword_run (Host.surroundings H)); [reflexivity|].
  unfold bind. rewrite quiet_diagnose. reflexivity.
Qed.

Lemma quiet_temporary_name file_url w :
  Host.temporary_name H file_url w
  = temporary_name (Host.surroundings H) file_url w.
Proof.
  unfold Host.temporary_name, temporary_name.
  destruct Hquiet as (_ & _ & Hurl & Htmp). rewrite Htmp.
  apply bind_agree; [reflexivity|]. intros _ w1. rewrite Hurl. reflexivity.
Qed.

Lemma quiet_attempt_extraction file_url app tmp_filename ext w :
  Host.attempt_extraction unicode_alnum H file_url app tmp_filename ext w
  = attempt_extraction unicode_alnum (Host.surroundings H) file_url app
      tmp_filename ext w.
Proof.
  unfold Host.attempt_extraction, attempt_extraction.
  apply bind_agree; [apply quiet_print|]. intros _ w1.
  apply bind_agree; [apply quiet_download_file|]. intros ok w2.
  destruct (negb ok); [reflexivity|].
  apply bind_agree.
  - repeat case_bool_decide; try reflexivity;
      (apply bind_agree; [apply quiet_print|]; intros _ w3).
    + apply quiet_extract_text_from_pdf.
    + apply quiet_extract_text_from_docx.
    + apply quiet_extract_text_from_doc.
  - intros text w3. destruct (negb (truthy (strip text))); [reflexivity|].
    apply bind_agree; [reflexivity|]. intros ts w4.
    apply bind_agree; [apply quiet_print|]. intros _ w5.
    apply bind_agree; [apply quiet_print|]. reflexivity.
Qed.

Lemma quiet_failure_result app e w :
  Host.failure_result H app e w = failure_result (Host.surroundings H) app e w.
Proof.
  unfold Host.failure_result, failure_result.
  apply bind_agree; [reflexivity|]. intros ts w1.
  apply bind_agree; [apply quiet_print|]. reflexivity.
Qed.

Lemma quiet_send_result cb tok r w :
  Host.send_result H cb tok r w = send_result (Host.surroundings H) cb tok r w.
Proof.
  unfold Host.send_result, send_result, try_except, bind.
  rewrite !quiet_print. cbn [print emit].
  destruct (http_post (Host.surroundings H) cb r) as [[]|e].
  - rewrite quiet_print. reflexivity.
  - rewrite quiet_print. reflexivity.
Qed.

Lemma quiet_process_file file_url app cb tok w :
  Host.process_file unicode_alnum H file_url app cb tok w
  = process_file unicode_alnum (Host.surroundings H) file_url app cb tok w.
Proof.
  unfold Host.process_file, process_file.
  apply bind_agree; [apply quiet_temporary_name|]. intros [tmp ext] w1.
  apply bind_agree.
  - apply try_finally_agree, try_except_agree.
    + apply quiet_attempt_extraction.
    + intros e w2. apply quiet_failure_result.
  - intros r w2. apply bind_agree; [apply quiet_send_result|]. reflexivity.
Qed.

Lemma quiet_main argv w :
  Host.main unicode_alnum H argv w
  = main unicode_alnum (Host.surroundings H) argv w.
Proof.
  unfold Host.main, main.
  destruct (negb (length argv =? 5)%nat).
  - rewrite quiet_print. reflexivity.
  - rewrite quiet_process_file.
    destruct (process_file _ _ _ _ _ _ _) as [[r|e] w1]; [|reflexivity].
    destruct (success r); rewrite quiet_print; reflexivity.
Qed.

End QuietHost.

(** ** The exit status on a host *)

Section HostExit.

Variable unicode_alnum : char -> bool.
Variable H : Host.host.

Lemma host_main_status argv w :
  fst (Host.main unicode_alnum H argv w)
  = if negb (length argv =? 5)%nat then 1%Z
    else match fst (Host.process_file unicode_alnum H (nth 1 argv [])
                      (nth 2 argv []) (nth 3 argv []) (nth 4 argv []) w) with
         | Ret r =>
             if success r
             then match Host.stdout H CompletedSuccessfully with
                  | Ret _ => 0%Z
                  | Raise _ => 1%Z
                  end
             else 1%Z
         | Raise _ => 1%Z
         end.
Proof.
  unfold Host.main. destruct (negb _); [reflexivity|].
  destruct (Host.process_file _ _ _ _ _ _ _) as [[r|e] w']; cbn [fst];
    [|reflexivity].
  destruct (success r); [|reflexivity].
  unfold Host.print.
  destruct (Host.stdout H CompletedSuccessfully) as [[]|e]; reflexivity.
Qed.

(** C9 fails on the code: line 245 prints a line that starts with U+2705
    before [sys.exit(0)], outside any [try]. When the console raises on that
    line, a run whose result has [success] set ends with exit status 1, and
    the world is the one [process_file] left: whatever callback went out
    reported the success. *)
Theorem exit_1_after_success script file_url app cb tok w r e :
  fst (Host.process_file unicode_alnum H file_url app cb tok w) = Ret r ->
  success r = true ->
  Host.stdout H CompletedSuccessfully = Raise e ->
  fst (Host.main unicode_alnum H [script; file_url; app; cb; tok] w) = 1%Z /\
  snd (Host.main unicode_alnum H [script; file_url; app; cb; tok] w)
  = snd (Host.process_file unicode_alnum H file_url app cb tok w).
Proof.
  intros Hrun Hs He. unfold Host.main. cbn [length Nat.eqb negb nth].
  destruct (Host.process_file unicode_alnum H file_url app cb tok w)
    as [[r'|e'] w']; cbn [fst snd] in *; [|discriminate].
  injection Hrun as ->. rewrite Hs. unfold Host.print. rewrite He.
  split; reflexivity.
Qed.

End HostExit.

Lemma exit_1_after_success_witness :
  fst (Host.process_file no_table (ascii_console (online plain_pdf)) cv_url
         (py "41") callback_url (py "secret") empty_world)
  = Ret (succeeded_with (py "41") (py "Jane Doe") (py ".pdf")
           (py "2024-05-01T10:00:00+00:00")) /\
  success (succeeded_with (py "41") (py "Jane Doe") (py ".pdf")
             (py "2024-05-01T10:00:00+00:00")) = true /\
  Host.stdout (ascii_console (online plain_pdf)) CompletedSuccessfully
  = Raise (py "'ascii' codec can't encode character") /\
  fst (Host.main no_table (ascii_console (online plain_pdf))
         [py "process_cv.py"; cv_url; py "41"; callback_url; py "secret"]
         empty_world) = 1%Z /\
  posts (snd (Host.main no_table (ascii_console (online plain_pdf))
                [py "process_cv.py"; cv_url; py "41"; callback_url; py "secret"]
                empty_world))
  = [(callback_url, py "secret",
      succeeded_with (py "41") (py "Jane Doe") (py ".pdf")
        (py "2024-05-01T10:00:00+00:00"))].
Proof.
  assert (Hrun :
    fst (Host.process_file no_table (ascii_console (online plain_pdf)) cv_url
           (py "41") callback_url (py "secret") empty_world)
    = Ret (succeeded_with (py "41") (py "Jane Doe") (py ".pdf")
             (py "2024-05-01T10:00:00+00:00")))
    by (vm_compute; reflexivity).
  split; [exact Hrun|]. split; [reflexivity|]. split; [reflexivity|].
  split; [|vm_compute; reflexivity].
  exact (proj1 (exit_1_after_success no_table (ascii_console (online plain_pdf))
                  (py "process_cv.py") cv_url (py "41") callback_url
                  (py "secret") empty_world _ _ Hrun eq_refl eq_refl)).
Defined.

(** ** What can go wrong on a host *)

Section HostFacts.

Variable unicode_alnum : char -> bool.
Variable H : Host.host.

Lemma console_only_ret {A} (a : A) : Host.console_only H (ret a).
Proof. intros w. split; [reflexivity|discriminate]. Qed.

Lemma console_only_bind {A B} (m : M A) (k : A -> M B) :
  Host.console_only H m -> (forall a, Host.console_only H (k a)) ->
  Host.console_only H (bind m k).
Proof.
  intros Hm Hk w. unfold bind. destruct (Hm w) as [Hl Hr].
  destruct (m w) as [[a|e] w1]; cbn [fst snd] in *.
  - destruct (Hk a w1) as [Hl1 Hr1]. split; [congruence|exact Hr1].
  - split; [exact Hl|]. intros e' [= <-]. apply Hr. reflexivity.
Qed.

Lemma console_only_emit ev : Host.console_only H (emit ev).
Proof. intros w. split; [reflexivity|discriminate]. Qed.

Lemma console_only_create path : Host.console_only H (create path).
Proof. intros w. split; [reflexivity|discriminate]. Qed.

Lemma console_only_print line : Host.console_only H (Host.print H line).
Proof.
  intros w. unfold Host.print.
  destruct (Host.stdout H line) as [[]|e'] eqn:Hout; cbn [fst snd emit].
  - split; [reflexivity|discriminate].
  - split; [reflexivity|]. intros e [= <-]. left. eauto.
Qed.

Lemma console_only_diagnose d : Host.console_only H (Host.diagnose H d).
Proof.
  intros w. unfold Host.diagnose.
  destruct (Host.stdout_diagnostic H d) as [[]|e'] eqn:Hout; cbn [fst snd].
  - split; [reflexivity|discriminate].
  - split; [reflexivity|]. intros e [= <-]. right. eauto.
Qed.

Lemma console_only_on_interrupt a b :
  Host.console_only H (Host.on_interrupt H a b).
Proof. destruct a; [apply console_only_ret|apply console_only_diagnose]. Qed.

Lemma console_only_download_file url filename :
  Host.console_only H (Host.download_file H url filename).
Proof.
  unfold Host.download_file.
  destruct (http_get (Host.surroundings H) url);
    repeat (apply console_only_bind; [|intros ?]);
    auto using @console_only_ret, console_only_create, console_only_diagnose.
Qed.

Lemma console_only_extract_text_from_pdf f :
  Host.console_only H (Host.extract_text_from_pdf unicode_alnum H f).
Proof.
  unfold Host.extract_text_from_pdf.
  apply console_only_bind; [apply console_only_emit|intros _].
  destruct (has_text _); [apply console_only_ret|].
  apply console_only_bind; [apply console_only_on_interrupt|intros _].
  apply console_only_bind; [apply console_only_emit|intros _].
  destruct (has_text _); [apply console_only_ret|].
  apply console_only_bind; [apply console_only_on_interrupt|intros _].
  apply console_only_bind; [apply console_only_emit|intros _].
  destruct (pdftotext_run f) as [[returncode stdout]|].
  - destruct (_ && _); apply console_only_ret.
  - apply console_only_bind; [apply console_only_diagnose|intros _].
    apply console_only_ret.
Qed.

Lemma console_only_extract_text_from_docx doc :
  Host.console_only H (Host.extract_text_from_docx unicode_alnum H doc).
Proof.
  destruct doc; [apply console_only_ret|].
  apply console_only_bind; [apply console_only_diagnose|intros _].
  apply console_only_ret.
Qed.

Lemma console_only_extract_text_from_doc run :
  Host.console_only H (Host.extract_text_from_doc unicode_alnum H run).
Proof.
  destruct run; [apply console_only_ret|].
  apply console_only_bind; [apply console_only_diagnose|intros _].
  apply console_only_ret.
Qed.

Lemma console_only_raise {A} (m : M A) w e w' :
  Host.console_only H m -> m w = (Raise e, w') -> Host.refuses H e.
Proof. intros Hm Hrun. apply (proj2 (Hm w)). rewrite Hrun. reflexivity. Qed.

Lemma console_only_lookups {A} (m : M A) w r w' :
  Host.console_only H m -> m w = (r, w') -> lookups w' = lookups w.
Proof. intros Hm Hrun. rewrite <- (proj1 (Hm w)), Hrun. reflexivity. Qed.

(** The extractor chosen for the extension. *)
Lemma supported_cases ext :
  In ext supported \/
  bool_decide (ext = py ".pdf") = false /\
  bool_decide (ext = py ".docx") = false /\
  bool_decide (ext = py ".doc") = false /\
  ~ In ext supported.
Proof.
  unfold supported. cbn [In].
  destruct (decide (ext = py ".pdf")) as [->|H1]; [left; auto|].
  destruct (decide (ext = py ".docx")) as [->|H2]; [left; auto|].
  destruct (decide (ext = py ".doc")) as [->|H3]; [left; auto|].
  right. rewrite !bool_decide_eq_false. intuition congruence.
Qed.

Lemma console_only_extractor ext :
  In ext supported ->
  Host.console_only H
    (if bool_decide (ext = py ".pdf") then
       Host.print H (ProcessingFormat (py "PDF")) ;;
       Host.extract_text_from_pdf unicode_alnum H (as_pdf (Host.surroundings H))
     else if bool_decide (ext = py ".docx") then
       Host.print H (ProcessingFormat (py "DOCX")) ;;
       Host.extract_text_from_docx unicode_alnum H (as_docx (Host.surroundings H))
     else if bool_decide (ext = py ".doc") then
       Host.print H (ProcessingFormat (py "DOC")) ;;
       Host.extract_text_from_doc unicode_alnum H
         (antiword_run (Host.surroundings H))
     else raise (py "Unsupported file type: " ++ ext)).
Proof.
  intros Hin. repeat case_bool_decide.
  - apply console_only_bind; [apply console_only_print|intros _].
    apply console_only_extract_text_from_pdf.
  - apply console_only_bind; [apply console_only_print|intros _].
    apply console_only_extract_text_from_docx.
  - apply console_only_bind; [apply console_only_print|intros _].
    apply console_only_extract_text_from_doc.
  - exfalso. unfold supported in Hin. cbn [In] in Hin. intuition congruence.
Qed.

(** [download_file] answers [False] only when the download failed. *)
Lemma host_download_file_false url filename w w' :
  Host.download_file H url filename w = (Ret false, w') ->
  http_get (Host.surroundings H) url <> Transferred.
Proof.
  unfold Host.download_file.
  destruct (http_get (Host.surroundings H) url); [|discriminate..].
  unfold bind, create, ret. discriminate.
Qed.

(** What the [try] body raises. *)
Lemma host_attempt_extraction_raise file_url app tmp_filename ext w e w' :
  Host.attempt_extraction unicode_alnum H file_url app tmp_filename ext w
  = (Raise e, w') ->
  e = py "Failed to download file" /\
  http_get (Host.surroundings H) file_url <> Transferred \/
  e = py "Unsupported file type: " ++ ext /\ ~ In ext supported \/
  e = py "No text could be extracted from the file" \/
  world_time (Host.surroundings H) (lookups w) = Raise e \/
  Host.refuses H e.
Proof.
  unfold Host.attempt_extraction. intros Hrun.
  apply bind_raise_inv in Hrun as [Hp|([] & w1 & Hp & Hrun)].
  { do 4 right. eapply console_only_raise; [|exact Hp].
    apply console_only_print. }
  apply (console_only_lookups _ _ _ _ (console_only_print _)) in Hp as Hl1.
  apply bind_raise_inv in Hrun as [Hd|(ok & w2 & Hd & Hrun)].
  { do 4 right. eapply console_only_raise; [|exact Hd].
    apply console_only_download_file. }
  apply (console_only_lookups _ _ _ _ (console_only_download_file _ _)) in Hd
    as Hl2.
  destruct ok; cbn [negb] in Hrun.
  2: { injection Hrun as <- _. left. split; [reflexivity|].
       eapply host_download_file_false, Hd. }
  destruct (supported_cases ext) as [Hin|(H1 & H2 & H3 & Hout)].
  2: { right. left. revert Hrun. unfold bind at 1. rewrite H1, H2, H3.
       intros [= <- _]. split; [reflexivity|exact Hout]. }
  apply bind_raise_inv in Hrun as [Hx|(text & w3 & Hx & Hrun)].
  { do 4 right. eapply console_only_raise; [|exact Hx].
    apply console_only_extractor, Hin. }
  apply (console_only_lookups _ _ _ _ (console_only_extractor _ Hin)) in Hx
    as Hl3.
  destruct (negb (truthy (strip text))).
  { injection Hrun as <- _. do 2 right. left. reflexivity. }
  apply bind_raise_inv in Hrun as [Ht|(ts & w4 & Ht & Hrun)].
  { do 3 right. left. unfold utc_datetime in Ht. injection Ht as Ht _.
    rewrite <- Ht. congruence. }
  do 4 right. eapply console_only_raise; [|exact Hrun].
  apply console_only_bind; [apply console_only_print|intros _].
  apply console_only_bind; [apply console_only_print|intros _].
  apply console_only_ret.
Qed.

(** The [try] body returns only a success record. *)
Lemma host_attempt_extraction_ret file_url app tmp_filename ext w r w' :
  Host.attempt_extraction unicode_alnum H file_url app tmp_filename ext w
  = (Ret r, w') ->
  success r = true.
Proof.
  unfold Host.attempt_extraction. intros Hrun.
  apply bind_ret_inv in Hrun as (_ & w1 & _ & Hrun).
  apply bind_ret_inv in Hrun as (ok & w2 & _ & Hrun).
  destruct (negb ok); [discriminate|].
  apply bind_ret_inv in Hrun as (text & w3 & _ & Hrun).
  destruct (negb (truthy (strip text))); [discriminate|].
  apply bind_ret_inv in Hrun as (ts & w4 & _ & Hrun).
  apply bind_ret_inv in Hrun as (_ & w5 & _ & Hrun).
  apply bind_ret_inv in Hrun as (_ & w6 & _ & Hrun).
  injection Hrun as <- _. reflexivity.
Qed.

(** The handler: the record it returns, and what it raises. *)
Lemma host_failure_result_ret app e w r w' :
  Host.failure_result H app e w = (Ret r, w') ->
  exists ts, r = failed app e ts.
Proof.
  unfold Host.failure_result. intros Hrun.
  apply bind_ret_inv in Hrun as (ts & w1 & _ & Hrun).
  apply bind_ret_inv in Hrun as (_ & w2 & _ & Hrun).
  injection Hrun as <- _. exists ts. reflexivity.
Qed.

Lemma host_failure_result_raise app e w e' w' :
  Host.failure_result H app e w = (Raise e', w') ->
  world_time (Host.surroundings H) (lookups w) = Raise e' \/
  Host.stdout H (ProcessingFailed e) = Raise e'.
Proof.
  unfold Host.failure_result. intros Hrun.
  apply bind_raise_inv in Hrun as [Ht|(ts & w1 & _ & Hrun)].
  { left. unfold utc_datetime in Ht. injection Ht as -> _. reflexivity. }
  apply bind_raise_inv in Hrun as [Hp|(_ & w2 & _ & Hrun)]; [|discriminate].
  right. unfold Host.print in Hp.
  destruct (Host.stdout H (ProcessingFailed e)) as [[]|e0]; [discriminate|].
  injection Hp as -> _. reflexivity.
Qed.

(** The temporary name: what it returns, and what it raises. *)
Lemma host_temporary_name_ret file_url w tmp_filename ext w' :
  Host.temporary_name H file_url w = (Ret (tmp_filename, ext), w') ->
  ext = resolve_extension (Host.surroundings H) file_url /\
  lookups w' = lookups w.
Proof.
  unfold Host.temporary_name.
  destruct (Host.tempfile_error H); [discriminate|].
  unfold bind, create.
  destruct (Host.urlparse_error H file_url); [discriminate|].
  intros [= _ <- <-]. split; reflexivity.
Qed.

Lemma host_temporary_name_raise file_url w e w' :
  Host.temporary_name H file_url w = (Raise e, w') ->
  Host.tempfile_error H = Some e \/ Host.urlparse_error H file_url = Some e.
Proof.
  unfold Host.temporary_name.
  destruct (Host.tempfile_error H) as [e1|].
  { intros [= <- _]. left. reflexivity. }
  unfold bind, create.
  destruct (Host.urlparse_error H file_url) as [e2|]; [|discriminate].
  intros [= <- _]. right. reflexivity.
Qed.

(** The callback raises only what the console raised on the line of its
    handler. *)
Lemma host_send_result_raise cb tok r w e w' :
  Host.send_result H cb tok r w = (Raise e, w') ->
  exists e0, Host.stdout H (CallbackFailed e0) = Raise e.
Proof.
  unfold Host.send_result, try_except.
  destruct (bind _ _ w) as [[[]|e0] w1]; [discriminate|].
  unfold Host.print.
  destruct (Host.stdout H (CallbackFailed e0)) as [[]|e1] eqn:Hout;
    [discriminate|].
  intros [= <- _]. exists e0. exact Hout.
Qed.

(** The [try ... except ... finally] block. *)
Lemma host_guarded_block_inv file_url app tmp_filename ext w r w' :
  try_finally
    (try_except
       (Host.attempt_extraction unicode_alnum H file_url app tmp_filename ext)
       (Host.failure_result H app))
    (clean_up tmp_filename) w = (r, w') ->
  match r with
  | Ret r =>
      success r = true \/
      exists e ts w1,
        r = failed app e ts /\
        Host.attempt_extraction unicode_alnum H file_url app tmp_filename ext w
        = (Raise e, w1)
  | Raise e' =>
      (exists n, world_time (Host.surroundings H) n = Raise e') \/
      (exists e, Host.stdout H (ProcessingFailed e) = Raise e')
  end.
Proof.
  unfold try_finally, try_except.
  destruct (Host.attempt_extraction unicode_alnum H file_url app tmp_filename
              ext w) as [[r1|e1] w1] eqn:Hrun.
  - destruct (clean_up_total tmp_filename w1) as (w2 & ->).
    intros [= <- _]. left. eapply host_attempt_extraction_ret, Hrun.
  - destruct (Host.failure_result H app e1 w1) as [[r2|e2] w2] eqn:Hfail;
      destruct (clean_up_total tmp_filename w2) as (w3 & ->);
      intros [= <- _].
    + right. apply host_failure_result_ret in Hfail as (ts & ->). eauto.
    + apply host_failure_result_raise in Hfail as [Ht|Hp]; eauto.
Qed.

Lemma host_process_file_inv file_url app cb tok w :
  match fst (Host.process_file unicode_alnum H file_url app cb tok w) with
  | Ret r =>
      success r = true \/
      exists e ts w0 w1,
        r = failed app e ts /\ lookups w0 = lookups w /\
        Host.attempt_extraction unicode_alnum H file_url app
          (working_name (Host.surroundings H) file_url)
          (resolve_extension (Host.surroundings H) file_url) w0
        = (Raise e, w1)
  | Raise e' =>
      Host.tempfile_error H = Some e' \/
      Host.urlparse_error H file_url = Some e' \/
      (exists n, world_time (Host.surroundings H) n = Raise e') \/
      (exists e, Host.stdout H (ProcessingFailed e) = Raise e') \/
      (exists e, Host.stdout H (CallbackFailed e) = Raise e')
  end.
Proof.
  unfold Host.process_file. unfold bind at 1.
  destruct (Host.temporary_name H file_url w) as [[[tmp ext]|e0] w0] eqn:Hname.
  2: { cbn [fst]. apply host_temporary_name_raise in Hname as [Ht|Hu]; auto. }
  assert (Htmp : tmp = working_name (Host.surroundings H) file_url).
  { revert Hname. unfold Host.temporary_name, working_name.
    destruct (Host.tempfile_error H); [discriminate|]. unfold bind, create.
    destruct (Host.urlparse_error H file_url); [discriminate|].
    intros [= <- _ _]. reflexivity. }
  apply host_temporary_name_ret in Hname as [-> Hl0]. subst tmp.
  unfold bind at 1.
  match goal with
  | |- context [try_finally ?m ?f w0] =>
      destruct (try_finally m f w0) as [[r|e1] w1] eqn:Hblock
  end; apply host_guarded_block_inv in Hblock.
  2: { cbn [fst]. destruct Hblock as [Ht|Hp]; auto. }
  unfold bind.
  destruct (Host.send_result H cb tok r w1) as [[[]|e2] w2] eqn:Hsend;
    cbn [fst ret].
  - destruct Hblock as [Hs|(e & ts & w3 & -> & Hrun)]; [left; exact Hs|].
    right. exists e, ts, w0, w3. auto.
  - apply host_send_result_raise in Hsend. auto.
Qed.

End HostFacts.

(** ** The outcomes of a run on a host *)

Section HostOutcomes.

Variable unicode_alnum : char -> bool.
Variable H : Host.host.



(** X16: the error of a failure result is "Failed to download file" (and
    then the download did fail), or "Unsupported file type: " followed by
    the extension (and then the extension is not supported), or "No text
    could be extracted from the file", or the text of an exception the time
    service raised on the lookup of the success record, or the text of an
    exception the console raised on a line printed inside the [try]. *)
Theorem failure_error_taxonomy file_url app cb tok w r :
  fst (Host.process_file unicode_alnum H file_url app cb tok w) = Ret r ->
  success r = false ->
  exists e,
    error r = Some e /\
    (e = py "Failed to download file" /\
     http_get (Host.surroundings H) file_url <> Transferred \/
     e = py "Unsupported file type: "
         ++ resolve_extension (Host.surroundings H) file_url /\
     ~ In (resolve_extension (Host.surroundings H) file_url) supported \/
     e = py "No text could be extracted from the file" \/
     world_time (Host.surroundings H) (lookups w) = Raise e \/
     (exists line, Host.stdout H line = Raise e) \/
     (exists d, Host.stdout_diagnostic H d = Raise e)).
Proof.
  intros Hrun Hs.
  pose proof (host_process_file_inv unicode_alnum H file_url app cb tok w) as Hinv.
  rewrite Hrun in Hinv.
  destruct Hinv as [Ht|(e & ts & w0 & w1 & -> & Hl & Hraise)]; [congruence|].
  exists e. split; [reflexivity|].
  apply host_attempt_extraction_raise in Hraise. rewrite Hl in Hraise.
  unfold Host.refuses in Hraise. tauto.
Qed.



End HostOutcomes.

Ltac accepts_all := repeat split; intros; reflexivity.



(** The console refuses the preview of the extracted text: the run that
    had extracted the text reports a failure, with the console's
    exception as its error. *)
Lemma failure_error_taxonomy_witness :
  fst (Host.process_file no_table
         (preview_refused (sample (py ".docx") Transferred clock)) cv_url
         (py "41") callback_url (py "secret") empty_world)
  = Ret (failed (py "41") (py "'charmap' codec can't encode character")
           (py "2024-05-01T10:00:00+00:00")) /\
  success (failed (py "41") (py "'charmap' codec can't encode character")
             (py "2024-05-01T10:00:00+00:00")) = false /\
  exists e,
    error (failed (py "41") (py "'charmap' codec can't encode character")
             (py "2024-05-01T10:00:00+00:00")) = Some e /\
    (e = py "Failed to download file" /\
     http_get (sample (py ".docx") Transferred clock) cv_url <> Transferred \/
     e = py "Unsupported file type: "
         ++ resolve_extension (sample (py ".docx") Transferred clock) cv_url /\
     ~ In (resolve_extension (sample (py ".docx") Transferred clock) cv_url)
         supported \/
     e = py "No text could be extracted from the file" \/
     world_time (sample (py ".docx") Transferred clock) (lookups empty_world)
     = Raise e \/
     (exists line,
        Host.stdout (preview_refused (sample (py ".docx") Transferred clock)) line
        = Raise e) \/
     (exists d,
        Host.stdout_diagnostic
          (preview_refused (sample (py ".docx") Transferred clock)) d
        = Raise e)).
Proof.
  assert (Hrun :
    fst (Host.process_file no_table
           (preview_refused (sample (py ".docx") Transferred clock)) cv_url
           (py "41") callback_url (py "secret") empty_world)
    = Ret (failed (py "41") (py "'charmap' codec can't encode character")
             (py "2024-05-01T10:00:00+00:00")))
    by (vm_compute; reflexivity).
  split; [exact Hrun|]. split; [reflexivity|].
  exact (failure_error_taxonomy no_table
           (preview_refused (sample (py ".docx") Transferred clock))
           cv_url (py "41") callback_url (py "secret") empty_world _
           Hrun eq_refl).
Defined.



(** ** The exit status, and what happens before the [try] *)

Section HostEdges.

Variable unicode_alnum : char -> bool.
Variable H : Host.host.


Lemma quiet_with_callback post : Host.quiet H -> Host.quiet (with_callback H post).
Proof. intros Hq. exact Hq. Qed.


(** X25: when [urlparse] raises on the URL (line 134, inside the [with]
    block and before the [try]), the exception leaves [process_file]: the
    temporary file stays, nothing is printed, the time service is not
    asked and no callback is attempted; the exit status is 1. *)
Theorem malformed_url_escapes script file_url app cb tok w e :
  Host.tempfile_error H = None ->
  Host.urlparse_error H file_url = Some e ->
  Host.process_file unicode_alnum H file_url app cb tok w
  = (Raise e, snd (create (fresh_name (Host.surroundings H)) w)) /\
  Host.main unicode_alnum H [script; file_url; app; cb; tok] w
  = (1%Z, snd (create (fresh_name (Host.surroundings H)) w)).
Proof.
  intros Htmp Hurl.
  assert (Hrun : Host.process_file unicode_alnum H file_url app cb tok w
                 = (Raise e, snd (create (fresh_name (Host.surroundings H)) w))).
  { unfold Host.process_file, Host.temporary_name. rewrite Htmp.
    unfold bind, create. rewrite Hurl. reflexivity. }
  split; [exact Hrun|].
  unfold Host.main. cbn [length Nat.eqb negb nth]. rewrite Hrun. reflexivity.
Qed.

End HostEdges.


Lemma malformed_url_escapes_witness :
  Host.tempfile_error (strict_parser (online plain_pdf)) = None /\
  Host.urlparse_error (strict_parser (online plain_pdf)) bracket_url
  = Some (py "Invalid IPv6 URL") /\
  Host.process_file no_table (strict_parser (online plain_pdf)) bracket_url
    (py "41") callback_url (py "secret") empty_world
  = (Raise (py "Invalid IPv6 URL"),
     snd (create (fresh_name (online plain_pdf)) empty_world)).
Proof.
  split; [reflexivity|]. split; [reflexivity|].
  apply (proj1 (malformed_url_escapes no_table (strict_parser (online plain_pdf))
                  (py "process_cv.py") bracket_url (py "41") callback_url
                  (py "secret") empty_world (py "Invalid IPv6 URL")
                  eq_refl eq_refl)).
Defined.
